(** * The Bigtable service broker: Provision and Deprovision

    A shallow embedding of [brokerapi/brokers/bigtable/broker.go] and the
    properties of its parameter resolution, of the calls it issues to the
    cloud provider and of the values it hands back.

    Layout:
    - Go strings, [strconv.Atoi] and the part of [encoding/json] the broker
      relies on (decoding into a [map[string]string], encoding one struct);
    - the data model ([ServiceInstanceDetails], [InstanceConf], ...);
    - the outside world (name generator, provider, persistence) and a small
      monad that threads the log of the calls made to it;
    - [Provision], [Deprovision] and [MapPlan];
    - sample requests and worlds;
    - the properties: the decoder's fuel, what a run returns and which
      calls it makes, then cluster id, deprovisioning, node count and
      storage type, raw parameters and error paths. *)

From Stdlib Require Import ZArith NArith String Ascii List Bool Lia.
From stdpp Require Import gmap strings.

Open Scope string_scope.

(** ** Go strings

    A Go [string] is a sequence of bytes: [len] counts bytes and [s[:n]]
    slices bytes.  Rocq's [string] is a sequence of 8-bit [ascii], so
    [String.length] is [len] and [substring 0 n] is [s[:n]] (for
    [n <= len s]; Go panics beyond, and the broker slices under a guard). *)

Definition byte (c : ascii) : nat := nat_of_ascii c.

(** The double quote, which a Rocq literal cannot hold undoubled. *)
Definition dq : string := String "034" "".

Definition quoted (s : string) : string := dq +:+ s +:+ dq.

(** Errors of library calls are carried by their [Error()] text. *)
Definition liberr := string.

(** ** strconv.Atoi

    [Atoi s] is [ParseInt(s, 10, 0)] with [int] 64 bits wide: an optional
    sign, then [ParseUint]'s digit loop with its two overflow tests, then
    the signed range test. *)

Inductive NumErr := ErrSyntax | ErrRange.

Definition is_digit (c : ascii) : bool :=
  (48 <=? byte c)%nat && (byte c <=? 57)%nat.

Definition digit_val (c : ascii) : Z := Z.of_nat (byte c) - 48.

Definition maxUint64 : Z := 2 ^ 64 - 1.

Fixpoint parseUint_loop (n : Z) (s : string) : NumErr + Z :=
  match s with
  | "" => inr n
  | String c r =>
      if negb (is_digit c) then inl ErrSyntax
      else if (maxUint64 / 10 + 1 <=? n)%Z then inl ErrRange
      else
        let n1 := (n * 10 + digit_val c)%Z in
        if (maxUint64 <? n1)%Z then inl ErrRange else parseUint_loop n1 r
  end.

Definition ParseUint (s : string) : NumErr + Z :=
  match s with
  | "" => inl ErrSyntax
  | _ => parseUint_loop 0 s
  end.

Definition ParseInt (s : string) : NumErr + Z :=
  match s with
  | "" => inl ErrSyntax
  | String c r =>
      let neg := Ascii.eqb c "-" in
      let body := if Ascii.eqb c "+" || neg then r else s in
      match ParseUint body with
      | inl e => inl e
      | inr un =>
          let cutoff := (2 ^ 63)%Z in
          if negb neg && (cutoff <=? un)%Z then inl ErrRange
          else if neg && (cutoff <? un)%Z then inl ErrRange
          else inr (if neg then (- un)%Z else un)
      end
  end.

(** The text of a [*NumError]; [strconv.Quote] is rendered as plain
    quoting. *)
Definition NumError (s : string) (e : NumErr) : liberr :=
  "strconv.Atoi: parsing " +:+ quoted s +:+
  match e with
  | ErrSyntax => ": invalid syntax"
  | ErrRange => ": value out of range"
  end.

Definition Atoi (s : string) : liberr + Z :=
  match ParseInt s with
  | inl e => inl (NumError s e)
  | inr n => inr n
  end.

(** The conversion [int32(n)]: the low 32 bits, read as two's complement. *)
Definition int32 (n : Z) : Z := ((n + 2 ^ 31) mod 2 ^ 32 - 2 ^ 31)%Z.

(** ** UTF-8, as [unicode/utf8] decodes and encodes it *)

Definition in_range (lo hi : nat) (c : ascii) : bool :=
  (lo <=? byte c)%nat && (byte c <=? hi)%nat.

Definition is_cont : ascii -> bool := in_range 128 191.

(** The size of the well-formed encoding at the head of [s]; [None] is
    what [utf8.DecodeRune] reports as [(RuneError, 1)]. *)
Definition utf8_size (s : string) : option nat :=
  match s with
  | "" => None
  | String b0 r =>
      if (byte b0 <? 128)%nat then Some 1%nat
      else if in_range 194 223 b0 then
        match r with
        | String b1 _ => if is_cont b1 then Some 2%nat else None
        | _ => None
        end
      else if in_range 224 239 b0 then
        match r with
        | String b1 (String b2 _) =>
            let lo := if (byte b0 =? 224)%nat then 160%nat else 128%nat in
            let hi := if (byte b0 =? 237)%nat then 159%nat else 191%nat in
            if in_range lo hi b1 && is_cont b2 then Some 3%nat else None
        | _ => None
        end
      else if in_range 240 244 b0 then
        match r with
        | String b1 (String b2 (String b3 _)) =>
            let lo := if (byte b0 =? 240)%nat then 144%nat else 128%nat in
            let hi := if (byte b0 =? 244)%nat then 143%nat else 191%nat in
            if in_range lo hi b1 && is_cont b2 && is_cont b3
            then Some 4%nat else None
        | _ => None
        end
      else None
  end.

Definition chr (n : N) : ascii := ascii_of_N n.

(** [utf8.EncodeRune] for a code point that is not a surrogate. *)
Definition encodeRune (cp : N) : string :=
  if (cp <? 128)%N then String (chr cp) ""
  else if (cp <? 2048)%N then
    String (chr (192 + cp / 64)) (String (chr (128 + cp mod 64)) "")
  else if (cp <? 65536)%N then
    String (chr (224 + cp / 4096))
      (String (chr (128 + (cp / 64) mod 64))
         (String (chr (128 + cp mod 64)) ""))
  else
    String (chr (240 + cp / 262144))
      (String (chr (128 + (cp / 4096) mod 64))
         (String (chr (128 + (cp / 64) mod 64))
            (String (chr (128 + cp mod 64)) ""))).

(** U+FFFD, the replacement character. *)
Definition RuneError : N := 65533.

Definition take (n : nat) (s : string) : string := substring 0 n s.

Fixpoint drop (n : nat) (s : string) : string :=
  match n, s with
  | O, _ => s
  | S n', String _ r => drop n' r
  | S _, "" => ""
  end.

(** ** encoding/json, decoding

    [json.Unmarshal] first checks that its input is one well-formed JSON
    value surrounded by optional white space, then stores that value in
    the target.  [parse] is the first step and builds the value;
    [json_Unmarshal] is the second step for a target of type
    [map[string]string] that is [nil] beforehand. *)

#[local] Set Warnings "-register-all".

Inductive json :=
| JNull
| JBool (b : bool)
| JNumber
| JString (s : string)
| JArray (elems : list json)
| JObject (members : list (string * json)).

Definition is_space (c : ascii) : bool :=
  match byte c with
  | 32%nat | 9%nat | 10%nat | 13%nat => true
  | _ => false
  end.

Fixpoint skip_space (s : string) : string :=
  match s with
  | String c r => if is_space c then skip_space r else s
  | "" => s
  end.

Definition hex_val (c : ascii) : option N :=
  let b := byte c in
  if in_range 48 57 c then Some (N.of_nat (b - 48))
  else if in_range 97 102 c then Some (N.of_nat (b - 87))
  else if in_range 65 70 c then Some (N.of_nat (b - 55))
  else None.

(** [s] without its first byte, when that byte is [c]. *)
Definition after (c : ascii) (s : string) : option string :=
  match s with
  | String c' r => if Ascii.eqb c' c then Some r else None
  | "" => None
  end.

(** [getu4]: the rune of the u-escape (backslash, [u], four hexadecimal
    digits) at the head of [s], and what follows it. *)
Definition getu4 (s : string) : option (N * string) :=
  match after "092" s with
  | Some s1 =>
      match after "u" s1 with
      | Some (String a (String b (String c (String d r)))) =>
          match hex_val a, hex_val b, hex_val c, hex_val d with
          | Some x, Some y, Some z, Some w =>
              Some ((((x * 16 + y) * 16 + z) * 16 + w)%N, r)
          | _, _, _, _ => None
          end
      | _ => None
      end
  | None => None
  end.

Definition is_surrogate (r : N) : bool := (55296 <=? r)%N && (r <? 57344)%N.

(** [utf16.DecodeRune]: a high then a low surrogate make one code point,
    anything else is [RuneError]. *)
Definition utf16_DecodeRune (r1 r2 : N) : N :=
  if (55296 <=? r1)%N && (r1 <? 56320)%N && (56320 <=? r2)%N && (r2 <? 57344)%N
  then ((r1 - 55296) * 1024 + (r2 - 56320) + 65536)%N
  else RuneError.

Definition simple_escape (c : ascii) : option ascii :=
  match byte c with
  | 34%nat => Some "034"%char
  | 92%nat => Some "092"%char
  | 47%nat => Some "047"%char
  | 98%nat => Some "008"%char
  | 102%nat => Some "012"%char
  | 110%nat => Some "010"%char
  | 114%nat => Some "013"%char
  | 116%nat => Some "009"%char
  | _ => None
  end.

Definition prepend (p : string) (r : option (string * string))
  : option (string * string) :=
  match r with
  | Some (v, rest) => Some (p +:+ v, rest)
  | None => None
  end.

(** The text of a string literal, read from just after its opening quote:
    escapes are replaced, a lone surrogate escape and every byte that is
    not part of well-formed UTF-8 become U+FFFD, control bytes are
    refused.  [unquote_step] reads one piece and leaves the rest of the
    literal to [rec]. *)
Definition unquote_step (rec : string -> option (string * string)) (s : string)
  : option (string * string) :=
  match s with
  | "" => None
  | String c r =>
      if Ascii.eqb c "034" then Some ("", r)
      else if Ascii.eqb c "092" then
        match r with
        | "" => None
        | String e r' =>
            if Ascii.eqb e "u" then
              match getu4 s with
              | None => None
              | Some (rr, r2) =>
                  if is_surrogate rr then
                    match getu4 r2 with
                    | Some (rr1, r4) =>
                        let dec := utf16_DecodeRune rr rr1 in
                        if (dec =? RuneError)%N
                        then prepend (encodeRune RuneError) (rec r2)
                        else prepend (encodeRune dec) (rec r4)
                    | None => prepend (encodeRune RuneError) (rec r2)
                    end
                  else prepend (encodeRune rr) (rec r2)
              end
            else
              match simple_escape e with
              | Some b => prepend (String b "") (rec r')
              | None => None
              end
        end
      else if (byte c <? 32)%nat then None
      else
        match utf8_size s with
        | Some n => prepend (take n s) (rec (drop n s))
        | None => prepend (encodeRune RuneError) (rec r)
        end
  end.

Fixpoint unquote (fuel : nat) (s : string) : option (string * string) :=
  match fuel with
  | O => None
  | S fuel => unquote_step (unquote fuel) s
  end.

(** A string literal from its opening quote on; each piece takes at least
    one byte, so the length of the input is fuel enough
    ([unquote_fuel]). *)
Definition scan_string (s : string) : option (string * string) :=
  match after "034" s with
  | Some r => unquote (S (String.length r)) r
  | None => None
  end.

Fixpoint skip_digits (s : string) : string :=
  match s with
  | String c r => if is_digit c then skip_digits r else s
  | "" => s
  end.

Definition digits1 (s : string) : option string :=
  match s with
  | String c r => if is_digit c then Some (skip_digits r) else None
  | "" => None
  end.

(** A number literal: an optional minus sign; a zero, or a non-zero digit
    and more digits; optionally a dot and digits; optionally an exponent
    mark, a sign and digits.  What follows it is left to the caller. *)
Definition scan_number (s : string) : option string :=
  let s1 := match after "-" s with Some r => r | None => s end in
  let int_part :=
    match after "0" s1 with
    | Some r => Some r
    | None => digits1 s1
    end in
  match int_part with
  | None => None
  | Some s2 =>
      let frac_part :=
        match after "." s2 with
        | Some r => digits1 r
        | None => Some s2
        end in
      match frac_part with
      | None => None
      | Some s3 =>
          match s3 with
          | String c r =>
              if Ascii.eqb c "e" || Ascii.eqb c "E" then
                match r with
                | String sg r' =>
                    if Ascii.eqb sg "+" || Ascii.eqb sg "-"
                    then digits1 r' else digits1 r
                | "" => None
                end
              else Some s3
          | "" => Some s3
          end
      end
  end.

Definition strip_prefix (p s : string) : option string :=
  if String.prefix p s then Some (drop (String.length p) s) else None.

Definition tagged {A B : Type} (f : A -> B) (r : option (A * string))
  : option (B * string) :=
  match r with
  | Some (a, rest) => Some (f a, rest)
  | None => None
  end.

(** One value; the elements of an array and the members of an object are
    left to [elements] and [members], which read from just after the
    opening bracket. *)
Definition value_step
    (elements : string -> option (list json * string))
    (members : string -> option (list (string * json) * string))
    (s : string) : option (json * string) :=
  match skip_space s with
  | "" => None
  | String c r as s' =>
      if Ascii.eqb c "{" then
        match after "}" (skip_space r) with
        | Some r' => Some (JObject [], r')
        | None => tagged JObject (members r)
        end
      else if Ascii.eqb c "[" then
        match after "]" (skip_space r) with
        | Some r' => Some (JArray [], r')
        | None => tagged JArray (elements r)
        end
      else if Ascii.eqb c "034" then tagged JString (scan_string s')
      else if Ascii.eqb c "t" then
        option_map (pair (JBool true)) (strip_prefix "true" s')
      else if Ascii.eqb c "f" then
        option_map (pair (JBool false)) (strip_prefix "false" s')
      else if Ascii.eqb c "n" then
        option_map (pair JNull) (strip_prefix "null" s')
      else option_map (pair JNumber) (scan_number s')
  end.

(** The elements of an array, from just after the opening bracket or a
    comma: a value, then a comma and more elements, or the closing
    bracket. *)
Definition elements_step
    (value : string -> option (json * string))
    (elements : string -> option (list json * string))
    (s : string) : option (list json * string) :=
  match value s with
  | None => None
  | Some (v, r) =>
      match after "," (skip_space r) with
      | Some r' => tagged (cons v) (elements r')
      | None =>
          match after "]" (skip_space r) with
          | Some r' => Some ([v], r')
          | None => None
          end
      end
  end.

(** The members of an object, from just after the opening brace or a
    comma: a string literal, a colon, a value, then a comma and more
    members, or the closing brace. *)
Definition members_step
    (value : string -> option (json * string))
    (members : string -> option (list (string * json) * string))
    (s : string) : option (list (string * json) * string) :=
  match scan_string (skip_space s) with
  | None => None
  | Some (k, r1) =>
      match after ":" (skip_space r1) with
      | None => None
      | Some r2 =>
          match value r2 with
          | None => None
          | Some (v, r3) =>
              match after "," (skip_space r3) with
              | Some r4 => tagged (cons (k, v)) (members r4)
              | None =>
                  match after "}" (skip_space r3) with
                  | Some r4 => Some ([(k, v)], r4)
                  | None => None
                  end
              end
          end
      end
  end.

Fixpoint parse_value (fuel : nat) (s : string) : option (json * string) :=
  match fuel with
  | O => None
  | S fuel => value_step (parse_elements fuel) (parse_members fuel) s
  end
with parse_elements (fuel : nat) (s : string) : option (list json * string) :=
  match fuel with
  | O => None
  | S fuel => elements_step (parse_value fuel) (parse_elements fuel) s
  end
with parse_members (fuel : nat) (s : string)
  : option (list (string * json) * string) :=
  match fuel with
  | O => None
  | S fuel => members_step (parse_value fuel) (parse_members fuel) s
  end.

(** The whole input is one value: [checkValid].  Going into a value takes
    one unit of fuel and going on to the next element or member another,
    each after at least one byte of input: twice the length of the input
    is fuel enough ([parse_fuel]). *)
Definition parse (data : string) : option json :=
  match parse_value (2 * String.length data + 2) data with
  | Some (v, r) =>
      match skip_space r with
      | "" => Some v
      | _ => None
      end
  | None => None
  end.

Definition json_kind (v : json) : string :=
  match v with
  | JNull => "null"
  | JBool _ => "bool"
  | JNumber => "number"
  | JString _ => "string"
  | JArray _ => "array"
  | JObject _ => "object"
  end.

Definition UnmarshalTypeError (v : json) (target : string) : liberr :=
  "json: cannot unmarshal " +:+ json_kind v +:+ " into Go value of type "
  +:+ target.

(** A Go map of strings: [None] is the [nil] map. *)
Abbreviation gomap := (option (gmap string string)).

(** Storing the members of an object in a map of strings: a string is
    stored, [null] leaves the zero value, anything else is a type error;
    a later member with the same key replaces an earlier one.  The
    decoder goes on after a type error and reports the first one. *)
Fixpoint store_members (kvs : list (string * json)) (m : gmap string string)
  : option liberr * gmap string string :=
  match kvs with
  | [] => (None, m)
  | (k, v) :: rest =>
      let '(e, x) :=
        match v with
        | JString s => (None, s)
        | JNull => (None, "")
        | _ => (Some (UnmarshalTypeError v "string"), "")
        end in
      let '(e', m') := store_members rest (<[k := x]> m) in
      (match e with Some _ => e | None => e' end, m')
  end.

(** The text of a [*SyntaxError] is not reproduced byte for byte. *)
Definition SyntaxError : liberr := "invalid JSON syntax".

(** [json.Unmarshal(data, &m)] for [var m map[string]string]: the error,
    or the value [m] has afterwards. *)
Definition json_Unmarshal (data : string) : liberr + gomap :=
  match parse data with
  | None => inl SyntaxError
  | Some JNull => inr None
  | Some (JObject kvs) =>
      match store_members kvs ∅ with
      | (Some e, _) => inl e
      | (None, m) => inr (Some m)
      end
  | Some v => inl (UnmarshalTypeError v "map[string]string")
  end.

(** ** encoding/json, encoding

    A string as [json.Marshal] writes it: between quotes, with the quote
    and the backslash escaped by a backslash, line feed, carriage return
    and tab by their letter, the other control bytes and [<], [>], [&] by
    their code in the u-escape of four hexadecimal digits, and likewise
    U+2028, U+2029 and, as U+FFFD, every byte outside well-formed UTF-8.
    [k] counts the continuation bytes of the current code point still to
    be copied. *)

Definition u_escape (hex4 : string) : string := String "092" ("u" +:+ hex4).

Definition hex_digit (n : nat) : ascii :=
  ascii_of_nat (if (n <? 10)%nat then 48 + n else 87 + n).

Definition htmlSafe (c : ascii) : bool :=
  in_range 32 127 c &&
  negb (Ascii.eqb c "034" || Ascii.eqb c "092" || Ascii.eqb c "<"
        || Ascii.eqb c ">" || Ascii.eqb c "&").

Definition escape_byte (c : ascii) : string :=
  if Ascii.eqb c "034" || Ascii.eqb c "092" then String "092" (String c "")
  else if Ascii.eqb c "010" then "\n"
  else if Ascii.eqb c "013" then "\r"
  else if Ascii.eqb c "009" then "\t"
  else u_escape ("00" +:+ String (hex_digit (byte c / 16))
                             (String (hex_digit (byte c mod 16)) "")).

Fixpoint encode_bytes (k : nat) (s : string) : string :=
  match s with
  | "" => ""
  | String c r =>
      match k with
      | S k' => String c (encode_bytes k' r)
      | O =>
          if (byte c <? 128)%nat then
            (if htmlSafe c then String c "" else escape_byte c)
            +:+ encode_bytes 0 r
          else
            match s with
            | String "226" (String "128" (String "168" r3)) =>
                u_escape "2028" +:+ encode_bytes 0 r3
            | String "226" (String "128" (String "169" r3)) =>
                u_escape "2029" +:+ encode_bytes 0 r3
            | _ =>
                match utf8_size s with
                | Some n => String c (encode_bytes (n - 1) r)
                | None => u_escape "fffd" +:+ encode_bytes 0 r
                end
            end
      end
  end.

Definition encode_string (s : string) : string := quoted (encode_bytes 0 s).

(** ** The data model *)

(** Modelled from the spec: [models.ServiceInstanceDetails], declared in
    the [models] package, is the generic persisted record with the fields
    [Name], [Url], [Location] and [OtherDetails]. *)
Record ServiceInstanceDetails := {
  Name : string;
  Url : string;
  Location : string;
  OtherDetails : string
}.

(** [models.ServiceInstanceDetails{}], the zero value. *)
Definition zero_ServiceInstanceDetails : ServiceInstanceDetails :=
  {| Name := ""; Url := ""; Location := ""; OtherDetails := "" |}.

(** Modelled from the spec: [models.ProvisionDetails] carries the raw
    JSON blob of user-supplied options ([json.RawMessage], bytes). *)
Record ProvisionDetails := { RawParameters : string }.

(** Modelled from the spec: [models.PlanDetails] carries the JSON-encoded
    plan configuration in [Features]. *)
Record PlanDetails := { Features : string }.

(** [models.DeprovisionDetails]: no field of it is read. *)
Inductive DeprovisionDetails := NoDeprovisionDetails.

(** The fields of the broker that the two operations read. *)
Record BigTableBroker := { ProjectId : string }.

Record InstanceInformation := { InstanceId : string }.

(** [json.Marshal] of an [InstanceInformation], whose one field is tagged
    [instance_id]; the encoder has no failing case for it. *)
Definition json_Marshal (ii : InstanceInformation) : liberr + string :=
  inr ("{" +:+ quoted "instance_id" +:+ ":" +:+ encode_string (InstanceId ii)
       +:+ "}").

(** [googlebigtable.StorageType] is an [int] with [SSD = iota] and [HDD]
    next; its zero value is [0]. *)
Definition StorageType := Z.
Definition SSD : StorageType := 0%Z.
Definition HDD : StorageType := 1%Z.
Definition zero_StorageType : StorageType := 0%Z.

Definition StorageTypes : gmap string StorageType :=
  <["SSD" := SSD]> (<["HDD" := HDD]> ∅).

(** [googlebigtable.InstanceConf], with the fields the broker fills;
    [NumNodes] is an [int32]. *)
Record InstanceConf := {
  ic_InstanceId : string;
  ic_ClusterId : string;
  ic_NumNodes : Z;
  ic_StorageType : StorageType;
  ic_Zone : string;
  ic_DisplayName : string
}.

(** Modelled from the spec: [models.ErrInstanceDoesNotExist], declared in
    the [models] package, is the distinct error for an instance that does
    not exist.  The other errors the broker returns are built by
    [fmt.Errorf] and carry their text. *)
Inductive error :=
| ErrInstanceDoesNotExist
| Errorf (msg : string).

(** ** Go maps of strings *)

(** [v, ok := m[k]]; reading a [nil] map finds nothing. *)
Definition comma_ok (m : gomap) (k : string) : option string :=
  match m with
  | Some g => g !! k
  | None => None
  end.

(** [m[k]]: the zero value when [k] is absent. *)
Definition index (m : gomap) (k : string) : string :=
  match comma_ok m k with
  | Some v => v
  | None => ""
  end.

(** ** The outside world

    The broker talks to three collaborators: the name generator, the
    cloud provider (through an instance-admin client) and the persistence
    layer.  A [World] fixes how each of them answers; the calls made to
    them are logged in order. *)

(** The one client option in use, [option.WithUserAgent(models.CustomUserAgent)]. *)
Inductive ClientOption := WithCustomUserAgent.

(** A [*googlebigtable.InstanceAdminClient], scoped to a project. *)
Record InstanceAdminClient := { client_project : string }.

(** The table of persisted [ServiceInstanceDetails], keyed by [ID], behind
    a connection that may be failing. *)
Record Db := {
  rows : gmap string ServiceInstanceDetails;
  fault : option liberr
}.

(** [DbConnection.Where("ID = ?", id).First(&instance).Error]: the error
    of the connection, [ErrRecordNotFound] when no row has this id, or
    the row read into [instance]. *)
Definition ErrRecordNotFound : liberr := "record not found".

Definition First (db : Db) (id : string) : liberr + ServiceInstanceDetails :=
  match fault db with
  | Some e => inl e
  | None =>
      match rows db !! id with
      | Some r => inr r
      | None => inl ErrRecordNotFound
      end
  end.

Record World := {
  generated_name : string -> string;
  client_error : string -> list ClientOption -> option liberr;
  create_error : InstanceConf -> option liberr;
  delete_error : string -> option liberr;
  DbConnection : Db
}.

Inductive Call :=
| CallInstanceNameWithSeparator (sep : string)
| CallNewInstanceAdminClient (project : string) (opts : list ClientOption)
| CallCreateInstance (ic : InstanceConf)
| CallDeleteInstance (name : string)
| CallFirst (id : string).

(** The calls that reach the provider's instance-administration API. *)
Definition is_provider_call (c : Call) : bool :=
  match c with
  | CallCreateInstance _ | CallDeleteInstance _ => true
  | _ => false
  end.

(** A Go function body either returns or panics. *)
Inductive Outcome (A : Type) : Type :=
| Returns (a : A)
| Panics (msg : string).

Arguments Returns {A} a.
Arguments Panics {A} msg.

(** Computations that read the world and extend the log of calls. *)
Definition Go (A : Type) : Type := World -> list Call -> Outcome A * list Call.

Definition ret {A : Type} (a : A) : Go A := fun _ log => (Returns a, log).

Definition bind {A B : Type} (m : Go A) (k : A -> Go B) : Go B :=
  fun w log =>
    match m w log with
    | (Returns a, log') => k a w log'
    | (Panics msg, log') => (Panics msg, log')
    end.

Definition panic {A : Type} (msg : string) : Go A :=
  fun _ log => (Panics msg, log).

Definition call {A : Type} (c : Call) (answer : World -> A) : Go A :=
  fun w log => (Returns (answer w), (log ++ [c])%list).

Notation "x <- m ;; k" := (bind m (fun x => k))
  (at level 20, m at level 99, k at level 200, only parsing).

(** A run from an empty log. *)
Definition run {A : Type} (m : Go A) (w : World) : Outcome A * list Call :=
  m w [].

Definition outcome {A : Type} (r : Outcome A * list Call) : Outcome A := fst r.
Definition calls {A : Type} (r : Outcome A * list Call) : list Call := snd r.

(** [name_generator.Basic.InstanceNameWithSeparator(sep)] *)
Definition InstanceNameWithSeparator (sep : string) : Go string :=
  call (CallInstanceNameWithSeparator sep) (fun w => generated_name w sep).

(** [googlebigtable.NewInstanceAdminClient(ctx, project, opts...)] *)
Definition NewInstanceAdminClient (project : string) (opts : list ClientOption)
  : Go (liberr + InstanceAdminClient) :=
  call (CallNewInstanceAdminClient project opts)
    (fun w =>
       match client_error w project opts with
       | Some e => inl e
       | None => inr {| client_project := project |}
       end).

(** [service.CreateInstance(ctx, &ic)] *)
Definition CreateInstance (service : InstanceAdminClient) (ic : InstanceConf)
  : Go (option liberr) :=
  call (CallCreateInstance ic) (fun w => create_error w ic).

(** [service.DeleteInstance(ctx, name)] *)
Definition DeleteInstance (service : InstanceAdminClient) (name : string)
  : Go (option liberr) :=
  call (CallDeleteInstance name) (fun w => delete_error w name).

(** [db_service.DbConnection.Where("ID = ?", id).First(&instance).Error] *)
Definition DbConnection_First (id : string)
  : Go (liberr + ServiceInstanceDetails) :=
  call (CallFirst id) (fun w => First (DbConnection w) id).

(** [m[k] = v]; on a [nil] map the assignment panics. *)
Definition assign (m : gomap) (k v : string) : Go gomap :=
  match m with
  | Some g => ret (Some (<[k := v]> g))
  | None => panic "assignment to entry in nil map"
  end.

(** ** The broker *)

(** Lines 59-63: no raw parameters give the empty map, otherwise the blob
    is decoded. *)
Definition unmarshalParameters (details : ProvisionDetails) : liberr + gomap :=
  if (String.length (RawParameters details) =? 0)%nat then inr (Some ∅)
  else json_Unmarshal (RawParameters details).

(** Creates a new Bigtable instance identified by the name provided in
    [details.RawParameters.name] and optional [cluster_id] (a default will
    be supplied), [display_name], and [zone] (defaults to [us-east1-b]). *)
Definition Provision (b : BigTableBroker) (instanceId : string)
    (details : ProvisionDetails) (plan : PlanDetails)
  : Go (ServiceInstanceDetails * option error) :=
  match unmarshalParameters details with
  | inl err =>
      ret (zero_ServiceInstanceDetails,
           Some (Errorf ("Error unmarshalling parameters: " +:+ err)))
  | inr params =>
      (* Ensure there is a name for this instance *)
      params <- match comma_ok params "name" with
                | Some _ => ret params
                | None =>
                    name <- InstanceNameWithSeparator "-" ;;
                    assign params "name" name
                end ;;
      (* get plan parameters *)
      match json_Unmarshal (Features plan) with
      | inl err =>
          ret (zero_ServiceInstanceDetails,
               Some (Errorf ("Error unmarshalling plan features: " +:+ err)))
      | inr planDetails =>
          service <- NewInstanceAdminClient (ProjectId b) [WithCustomUserAgent] ;;
          match service with
          | inl err =>
              ret (zero_ServiceInstanceDetails,
                   Some (Errorf ("Error creating bigtable client: " +:+ err)))
          | inr service =>
              let clusterId :=
                if (20 <? String.length (index params "name"))%nat
                then substring 0 20 (index params "name") +:+ "-cluster"
                else index params "name" +:+ "-cluster" in
              let clusterId :=
                match comma_ok params "cluster_id" with
                | Some userClusterId => userClusterId
                | None => clusterId
                end in
              match Atoi (index planDetails "num_nodes") with
              | inl err =>
                  ret (zero_ServiceInstanceDetails,
                       Some (Errorf ("Error converting num_nodes to int: "
                                     +:+ err)))
              | inr numNodes =>
                  let zone :=
                    match comma_ok params "zone" with
                    | Some userZone => userZone
                    | None => "us-east1-b"
                    end in
                  let displayName :=
                    match comma_ok params "display_name" with
                    | Some userDisplayName => userDisplayName
                    | None => index params "name"
                    end in
                  let ic :=
                    {| ic_InstanceId := index params "name";
                       ic_ClusterId := clusterId;
                       ic_NumNodes := int32 numNodes;
                       ic_StorageType :=
                         default zero_StorageType
                           (StorageTypes !! index planDetails "storage_type");
                       ic_Zone := zone;
                       ic_DisplayName := displayName |} in
                  err <- CreateInstance service ic ;;
                  match err with
                  | Some err =>
                      ret (zero_ServiceInstanceDetails,
                           Some (Errorf ("Error creating new instance: "
                                         +:+ err)))
                  | None =>
                      let ii := {| InstanceId := index params "name" |} in
                      match json_Marshal ii with
                      | inl err =>
                          ret (zero_ServiceInstanceDetails,
                               Some (Errorf ("Error marshalling other details: "
                                             +:+ err)))
                      | inr otherDetails =>
                          let i :=
                            {| Name := index params "name";
                               Url := "";
                               Location := "";
                               OtherDetails := otherDetails |} in
                          ret (i, None)
                      end
                  end
              end
          end
      end
  end.

(** Deletes the instance associated with the given [instanceID] string. *)
Definition Deprovision (b : BigTableBroker) (instanceID : string)
    (details : DeprovisionDetails) : Go (option error) :=
  service <- NewInstanceAdminClient (ProjectId b) [] ;;
  match service with
  | inl err => ret (Some (Errorf ("Error creating BigQuery client: " +:+ err)))
  | inr service =>
      found <- DbConnection_First instanceID ;;
      match found with
      | inl err => ret (Some ErrInstanceDoesNotExist)
      | inr instance =>
          err <- DeleteInstance service (Name instance) ;;
          match err with
          | Some err => ret (Some (Errorf ("Error deleting dataset: " +:+ err)))
          | None => ret None
          end
      end
  end.

Definition MapPlan (details : gomap) : gomap :=
  Some (<["num_nodes" := index details "num_nodes"]>
          (<["storage_type" := index details "storage_type"]> ∅)).

(** ** What the decoder accepts

    Stated apart from the decoder: a blob is accepted for a map of strings
    when it is well-formed JSON and its value is [null] or an object whose
    members are strings or [null]. *)




(** ** Sample inputs

    Concrete requests and worlds, used to run the broker. *)

Definition member (k v : string) : string := quoted k +:+ ":" +:+ quoted v.

(** The text [{"name":"mytable"}]. *)
Definition mytable_parameters : string := "{" +:+ member "name" "mytable" +:+ "}".

(** The text [{"num_nodes":"3","storage_type":"SSD"}]. *)
Definition features_3_SSD : string :=
  "{" +:+ member "num_nodes" "3" +:+ "," +:+ member "storage_type" "SSD" +:+ "}".

(** The text [{"num_nodes":"abc","storage_type":"SSD"}]. *)
Definition features_abc_SSD : string :=
  "{" +:+ member "num_nodes" "abc" +:+ "," +:+ member "storage_type" "SSD"
  +:+ "}".

(** The text [{"num_nodes":"4","storage_type":"HDD"}]. *)
Definition features_4_HDD : string :=
  "{" +:+ member "num_nodes" "4" +:+ "," +:+ member "storage_type" "HDD" +:+ "}".

(** The text [{"instance_id":"mytable"}]. *)
Definition mytable_details : string :=
  "{" +:+ member "instance_id" "mytable" +:+ "}".

(** A name of 26 bytes, with and without a [cluster_id] of the user's. *)
Definition long_name : string := "abcdefghijklmnopqrstuvwxyz".

Definition long_name_parameters : string :=
  "{" +:+ member "name" long_name +:+ "}".

Definition long_name_cluster_parameters : string :=
  "{" +:+ member "name" long_name +:+ "," +:+ member "cluster_id" "mine"
  +:+ "}".

Definition sample_broker : BigTableBroker := {| ProjectId := "my-project" |}.

(** A record persisted under an id that differs from its [Name]. *)
Definition foo_record : ServiceInstanceDetails :=
  {| Name := "foo"; Url := ""; Location := "";
     OtherDetails := "{" +:+ member "instance_id" "foo" +:+ "}" |}.

Definition sample_db : Db :=
  {| rows := <["guid-1" := foo_record]> ∅; fault := None |}.

(** Every collaborator answers without error. *)
Definition world_ok : World :=
  {| generated_name := fun _ => "pcf-sb-1-1500000000";
     client_error := fun _ _ => None;
     create_error := fun _ => None;
     delete_error := fun _ => None;
     DbConnection := sample_db |}.

(** No administrative client can be created. *)
Definition world_no_client : World :=
  {| generated_name := generated_name world_ok;
     client_error := fun _ _ => Some "could not find default credentials";
     create_error := fun _ => None;
     delete_error := fun _ => None;
     DbConnection := sample_db |}.

(** The database connection is failing; the row is there all the same. *)
Definition world_db_down : World :=
  {| generated_name := generated_name world_ok;
     client_error := fun _ _ => None;
     create_error := fun _ => None;
     delete_error := fun _ => None;
     DbConnection :=
       {| rows := rows sample_db; fault := Some "connection refused" |} |}.

(** ** More sample inputs *)

(** The text [{"zone":"europe-west1-c","display_name":"My table"}]. *)
Definition zone_display_parameters : string :=
  "{" +:+ member "zone" "europe-west1-c" +:+ ","
  +:+ member "display_name" "My table" +:+ "}".

(** The text [{"name":""}]. *)
Definition empty_name_parameters : string := "{" +:+ member "name" "" +:+ "}".

(** The text [{"num_nodes":"4294967300","storage_type":"SSD"}]: a node
    count one past the 32 bits of an [int32], plus 4. *)
Definition features_wide_SSD : string :=
  "{" +:+ member "num_nodes" "4294967300" +:+ ","
  +:+ member "storage_type" "SSD" +:+ "}".

(** The text [{"storage_type":"SSD"}], without a node count. *)
Definition features_no_nodes : string :=
  "{" +:+ member "storage_type" "SSD" +:+ "}".

(** The provider refuses every create and every delete call. *)
Definition world_provider_refuses : World :=
  {| generated_name := generated_name world_ok;
     client_error := fun _ _ => None;
     create_error := fun _ => Some "rpc error: already exists";
     delete_error := fun _ => Some "rpc error: not found";
     DbConnection := sample_db |}.

(** The world in which the platform has stored [d] under [id]. *)
Definition persisted (id : string) (d : ServiceInstanceDetails) (w : World)
  : World :=
  {| generated_name := generated_name w;
     client_error := client_error w;
     create_error := create_error w;
     delete_error := delete_error w;
     DbConnection :=
       {| rows := <[id := d]> (rows (DbConnection w));
          fault := fault (DbConnection w) |} |}.

(** Strings of bytes below 128. *)
Fixpoint ascii_only (s : string) : bool :=
  match s with
  | "" => true
  | String c r => (byte c <? 128)%nat && ascii_only r
  end.

(** What the encoder writes for one byte below 128. *)
Definition encode_char (c : ascii) : string :=
  if htmlSafe c then String c "" else escape_byte c.

(** The text [{"name":"mytable","color":"blue"}], with a key that the
    broker does not know. *)
Definition mytable_color_parameters : string :=
  "{" +:+ member "name" "mytable" +:+ "," +:+ member "color" "blue" +:+ "}".

(** * Properties *)

(** ** Fuel

    The decoder recurses on fuel.  Each of its functions leaves less input
    than it was given, so the fuel it is started with is never what stops
    it: any larger amount gives the same result. *)

Lemma length_drop (n : nat) (s : string) :
  String.length (drop n s) = (String.length s - n)%nat.
Proof.
  revert s. induction n as [|n IH]; intros [|c s]; cbn; try lia. apply IH.
Qed.

Lemma length_after (c : ascii) (s r : string) :
  after c s = Some r → String.length s = S (String.length r).
Proof.
  destruct s as [|c' s]; [discriminate|]. cbn.
  destruct (Ascii.eqb c' c); [|discriminate]. by intros [= ->].
Qed.

Lemma length_skip_space (s : string) :
  (String.length (skip_space s) ≤ String.length s)%nat.
Proof.
  induction s as [|c s IH]; cbn; [lia|]. destruct (is_space c); cbn; lia.
Qed.

Lemma length_getu4 (s r : string) (n : N) :
  getu4 s = Some (n, r) → String.length s = (6 + String.length r)%nat.
Proof.
  unfold getu4. destruct (after "092" s) as [s1|] eqn:H1; [|discriminate].
  destruct (after "u" s1) as [s2|] eqn:H2; [|discriminate].
  apply length_after in H1, H2. rewrite H1, H2.
  destruct s2 as [|a [|b [|c [|d s2]]]]; try discriminate.
  destruct (hex_val a), (hex_val b), (hex_val c), (hex_val d); try discriminate.
  intros [= _ ->]. reflexivity.
Qed.

Lemma utf8_size_pos (s : string) (n : nat) : utf8_size s = Some n → (1 ≤ n)%nat.
Proof.
  destruct s as [|b0 r]; [discriminate|]. unfold utf8_size.
  destruct (byte b0 <? 128)%nat; [intros [= <-]; lia|].
  destruct (in_range 194 223 b0).
  { destruct r as [|b1 r]; [discriminate|].
    destruct (is_cont b1); intros [= <-]; lia. }
  destruct (in_range 224 239 b0).
  { destruct r as [|b1 [|b2 r]]; try discriminate.
    destruct (_ && _); intros [= <-]; lia. }
  destruct (in_range 240 244 b0); [|discriminate].
  destruct r as [|b1 [|b2 [|b3 r]]]; try discriminate.
  destruct (_ && _); intros [= <-]; lia.
Qed.

Lemma prepend_Some (p v r : string) (o : option (string * string)) :
  prepend p o = Some (v, r) → ∃ v', o = Some (v', r).
Proof. destruct o as [[v' r']|]; [|discriminate]. intros [= _ ->]. eauto. Qed.

Lemma tagged_Some {A B : Type} (f : A → B) (o : option (A * string))
    (y : B) (r : string) :
  tagged f o = Some (y, r) → ∃ x, o = Some (x, r).
Proof. destruct o as [[x r']|]; [|discriminate]. intros [= _ ->]. eauto. Qed.

(** A piece of a literal looks no further than [rec] on what it leaves,
    which is less than it was given. *)
Lemma unquote_step_ext (rec1 rec2 : string → option (string * string))
    (s : string) :
  (∀ r, (String.length r < String.length s)%nat → rec1 r = rec2 r) →
  unquote_step rec1 s = unquote_step rec2 s.
Proof.
  intros Hrec. unfold unquote_step.
  destruct s as [|c r]; [reflexivity|].
  destruct (Ascii.eqb c "034"); [reflexivity|].
  destruct (Ascii.eqb c "092").
  - destruct r as [|e r']; [reflexivity|].
    destruct (Ascii.eqb e "u").
    + destruct (getu4 (String c (String e r'))) as [[rr r2]|] eqn:Hu;
        [|reflexivity].
      apply length_getu4 in Hu.
      destruct (is_surrogate rr); [|rewrite Hrec by lia; reflexivity].
      destruct (getu4 r2) as [[rr1 r4]|] eqn:Hu';
        [|rewrite Hrec by lia; reflexivity].
      apply length_getu4 in Hu'. cbv zeta.
      destruct (_ =? _)%N; rewrite Hrec by lia; reflexivity.
    + destruct (simple_escape e); [|reflexivity].
      rewrite Hrec by (cbn; lia). reflexivity.
  - destruct (byte c <? 32)%nat; [reflexivity|].
    destruct (utf8_size (String c r)) as [n|] eqn:Hn.
    + apply utf8_size_pos in Hn. rewrite Hrec; [reflexivity|].
      rewrite length_drop. cbn. lia.
    + rewrite Hrec by (cbn; lia). reflexivity.
Qed.

Lemma unquote_more_fuel (f : nat) (s : string) :
  (String.length s < f)%nat → unquote (S f) s = unquote f s.
Proof.
  revert s. induction f as [|f IH]; intros s Hlen; [lia|].
  change (unquote_step (unquote (S f)) s = unquote_step (unquote f) s).
  apply unquote_step_ext. intros r Hr. apply IH. lia.
Qed.

(** More fuel than the length of the literal changes nothing. *)
Lemma unquote_fuel (f : nat) (s : string) :
  (String.length s < f)%nat → unquote f s = unquote (S (String.length s)) s.
Proof.
  intros Hlen. induction f as [|f IH]; [lia|].
  destruct (decide (f = String.length s)) as [->|Hne]; [reflexivity|].
  rewrite unquote_more_fuel by lia. apply IH. lia.
Qed.

Lemma unquote_consumes (f : nat) (s v r : string) :
  unquote f s = Some (v, r) → (String.length r < String.length s)%nat.
Proof.
  revert s v r. induction f as [|f IH]; intros s v r; [discriminate|].
  cbn [unquote]. unfold unquote_step.
  destruct s as [|c s']; [discriminate|].
  destruct (Ascii.eqb c "034"); [intros [= _ ->]; cbn; lia|].
  destruct (Ascii.eqb c "092").
  - destruct s' as [|e r']; [discriminate|].
    destruct (Ascii.eqb e "u").
    + destruct (getu4 (String c (String e r'))) as [[rr r2]|] eqn:Hu;
        [|discriminate].
      apply length_getu4 in Hu.
      destruct (is_surrogate rr);
        [|intros [v' H%IH]%prepend_Some; lia].
      destruct (getu4 r2) as [[rr1 r4]|] eqn:Hu';
        [|intros [v' H%IH]%prepend_Some; lia].
      apply length_getu4 in Hu'. cbv zeta.
      destruct (_ =? _)%N; intros [v' H%IH]%prepend_Some; lia.
    + destruct (simple_escape e); [|discriminate].
      intros [v' H%IH]%prepend_Some. cbn in *. lia.
  - destruct (byte c <? 32)%nat; [discriminate|].
    destruct (utf8_size (String c s')) as [n|] eqn:Hn.
    + intros [v' H%IH]%prepend_Some. rewrite length_drop in H. lia.
    + intros [v' H%IH]%prepend_Some. cbn. lia.
Qed.

Lemma scan_string_consumes (s v r : string) :
  scan_string s = Some (v, r) → (String.length r < String.length s)%nat.
Proof.
  unfold scan_string. destruct (after "034" s) as [s'|] eqn:Ha; [|discriminate].
  apply length_after in Ha. intros H%unquote_consumes. lia.
Qed.

Lemma length_skip_digits (s : string) :
  (String.length (skip_digits s) ≤ String.length s)%nat.
Proof.
  induction s as [|c s IH]; cbn; [lia|]. destruct (is_digit c); cbn; lia.
Qed.

Lemma digits1_consumes (s r : string) :
  digits1 s = Some r → (String.length r < String.length s)%nat.
Proof.
  destruct s as [|c s]; [discriminate|]. cbn.
  destruct (is_digit c); [|discriminate]. intros [= <-].
  pose proof (length_skip_digits s). lia.
Qed.

Lemma scan_number_consumes (s r : string) :
  scan_number s = Some r → (String.length r < String.length s)%nat.
Proof.
  unfold scan_number.
  set (s1 := match after "-" s with Some r0 => r0 | None => s end).
  assert (Hs1 : (String.length s1 ≤ String.length s)%nat).
  { subst s1. destruct (after "-" s) eqn:Ha; [|lia].
    apply length_after in Ha. lia. }
  destruct (match after "0" s1 with Some r0 => Some r0 | None => digits1 s1 end)
    as [s2|] eqn:Hint; [|discriminate].
  assert (Hs2 : (String.length s2 < String.length s1)%nat).
  { destruct (after "0" s1) eqn:Ha.
    - injection Hint as ->. apply length_after in Ha. lia.
    - by apply digits1_consumes. }
  destruct (match after "." s2 with Some r0 => digits1 r0 | None => Some s2 end)
    as [s3|] eqn:Hfrac; [|discriminate].
  assert (Hs3 : (String.length s3 ≤ String.length s2)%nat).
  { destruct (after "." s2) eqn:Ha.
    - apply length_after in Ha. apply digits1_consumes in Hfrac. lia.
    - injection Hfrac as ->. lia. }
  destruct s3 as [|c r3]; [intros [= <-]; cbn in *; lia|].
  destruct (_ || _); [|intros [= <-]; lia].
  destruct r3 as [|sg r']; [discriminate|].
  destruct (_ || _); intros H%digits1_consumes; cbn in *; lia.
Qed.

Lemma strip_prefix_consumes (p s r : string) :
  p ≠ "" → strip_prefix p s = Some r →
  (String.length r < String.length s)%nat.
Proof.
  unfold strip_prefix. intros Hp. destruct (String.prefix p s) eqn:Hpre;
    [|discriminate]. intros [= <-]. rewrite length_drop.
  destruct p as [|a p]; [done|]. destruct s as [|b s]; [discriminate|].
  cbn. lia.
Qed.

Section Steps.
Variables (value : string → option (json * string))
          (elements : string → option (list json * string))
          (members : string → option (list (string * json) * string)).

Hypothesis value_consumes : ∀ s v r,
  value s = Some (v, r) → (String.length r < String.length s)%nat.
Hypothesis elements_consumes : ∀ s vs r,
  elements s = Some (vs, r) → (String.length r < String.length s)%nat.
Hypothesis members_consumes : ∀ s kvs r,
  members s = Some (kvs, r) → (String.length r < String.length s)%nat.

Lemma value_step_consumes (s : string) (v : json) (r : string) :
  value_step elements members s = Some (v, r) →
  (String.length r < String.length s)%nat.
Proof.
  unfold value_step. pose proof (length_skip_space s) as Hs.
  destruct (skip_space s) as [|c s'] eqn:Heq; [discriminate|].
  cbn [String.length] in Hs.
  destruct (Ascii.eqb c "{").
  { pose proof (length_skip_space s') as Hs'.
    destruct (after "}" (skip_space s')) eqn:Ha.
    - apply length_after in Ha. intros [= _ <-]. lia.
    - intros [x Hx%members_consumes]%tagged_Some. lia. }
  destruct (Ascii.eqb c "[").
  { pose proof (length_skip_space s') as Hs'.
    destruct (after "]" (skip_space s')) eqn:Ha.
    - apply length_after in Ha. intros [= _ <-]. lia.
    - intros [x Hx%elements_consumes]%tagged_Some. lia. }
  destruct (Ascii.eqb c "034").
  { intros [x Hx%scan_string_consumes]%tagged_Some. cbn in Hx. lia. }
  destruct (Ascii.eqb c "t").
  { destruct (strip_prefix "true" (String c s')) eqn:Hp; [|discriminate].
    apply strip_prefix_consumes in Hp; [|done]. intros [= _ <-]. cbn in Hp. lia. }
  destruct (Ascii.eqb c "f").
  { destruct (strip_prefix "false" (String c s')) eqn:Hp; [|discriminate].
    apply strip_prefix_consumes in Hp; [|done]. intros [= _ <-]. cbn in Hp. lia. }
  destruct (Ascii.eqb c "n").
  { destruct (strip_prefix "null" (String c s')) eqn:Hp; [|discriminate].
    apply strip_prefix_consumes in Hp; [|done]. intros [= _ <-]. cbn in Hp. lia. }
  destruct (scan_number (String c s')) eqn:Hp; [|discriminate].
  apply scan_number_consumes in Hp. intros [= _ <-]. cbn in Hp. lia.
Qed.

Lemma elements_step_consumes (s : string) (vs : list json) (r : string) :
  elements_step value elements s = Some (vs, r) →
  (String.length r < String.length s)%nat.
Proof.
  unfold elements_step.
  destruct (value s) as [[v r0]|] eqn:Hv; [|discriminate].
  apply value_consumes in Hv. pose proof (length_skip_space r0) as Hs.
  destruct (after "," (skip_space r0)) eqn:Ha.
  - apply length_after in Ha.
    intros [x Hx%elements_consumes]%tagged_Some. lia.
  - destruct (after "]" (skip_space r0)) eqn:Hb; [|discriminate].
    apply length_after in Hb. intros [= _ <-]. lia.
Qed.

Lemma members_step_consumes (s : string) (kvs : list (string * json))
    (r : string) :
  members_step value members s = Some (kvs, r) →
  (String.length r < String.length s)%nat.
Proof.
  unfold members_step. pose proof (length_skip_space s) as Hs.
  destruct (scan_string (skip_space s)) as [[k r1]|] eqn:Hk; [|discriminate].
  apply scan_string_consumes in Hk. pose proof (length_skip_space r1) as Hs1.
  destruct (after ":" (skip_space r1)) as [r2|] eqn:Hc; [|discriminate].
  apply length_after in Hc.
  destruct (value r2) as [[v r3]|] eqn:Hv; [|discriminate].
  apply value_consumes in Hv. pose proof (length_skip_space r3) as Hs3.
  destruct (after "," (skip_space r3)) eqn:Ha.
  - apply length_after in Ha.
    intros [x Hx%members_consumes]%tagged_Some. lia.
  - destruct (after "}" (skip_space r3)) eqn:Hb; [|discriminate].
    apply length_after in Hb. intros [= _ <-]. lia.
Qed.

Variables (value' : string → option (json * string))
          (elements' : string → option (list json * string))
          (members' : string → option (list (string * json) * string)).

Lemma value_step_ext (s : string) :
  (∀ r, (String.length r < String.length s)%nat → elements r = elements' r) →
  (∀ r, (String.length r < String.length s)%nat → members r = members' r) →
  value_step elements members s = value_step elements' members' s.
Proof.
  intros He Hm. unfold value_step. pose proof (length_skip_space s) as Hs.
  destruct (skip_space s) as [|c s'] eqn:Heq; [reflexivity|].
  cbn [String.length] in Hs.
  rewrite He, Hm by lia. reflexivity.
Qed.

Lemma elements_step_ext (s : string) :
  value s = value' s →
  (∀ r, (String.length r < String.length s)%nat → elements r = elements' r) →
  elements_step value elements s = elements_step value' elements' s.
Proof.
  intros Hv He. unfold elements_step. rewrite <- Hv.
  destruct (value s) as [[v r0]|] eqn:Hv0; [|reflexivity].
  apply value_consumes in Hv0. pose proof (length_skip_space r0) as Hs.
  destruct (after "," (skip_space r0)) eqn:Ha; [|reflexivity].
  apply length_after in Ha. rewrite He by lia. reflexivity.
Qed.

Lemma members_step_ext (s : string) :
  (∀ r, (String.length r < String.length s)%nat → value r = value' r) →
  (∀ r, (String.length r < String.length s)%nat → members r = members' r) →
  members_step value members s = members_step value' members' s.
Proof.
  intros Hv Hm. unfold members_step. pose proof (length_skip_space s) as Hs.
  destruct (scan_string (skip_space s)) as [[k r1]|] eqn:Hk; [|reflexivity].
  apply scan_string_consumes in Hk. pose proof (length_skip_space r1) as Hs1.
  destruct (after ":" (skip_space r1)) as [r2|] eqn:Hc; [|reflexivity].
  apply length_after in Hc. rewrite <- Hv by lia.
  destruct (value r2) as [[v r3]|] eqn:Hv0; [|reflexivity].
  apply value_consumes in Hv0. pose proof (length_skip_space r3) as Hs3.
  destruct (after "," (skip_space r3)) eqn:Ha; [|reflexivity].
  apply length_after in Ha. rewrite Hm by lia. reflexivity.
Qed.
End Steps.

Lemma parse_consumes (f : nat) :
  (∀ s v r, parse_value f s = Some (v, r) →
            (String.length r < String.length s)%nat) ∧
  (∀ s vs r, parse_elements f s = Some (vs, r) →
             (String.length r < String.length s)%nat) ∧
  (∀ s kvs r, parse_members f s = Some (kvs, r) →
              (String.length r < String.length s)%nat).
Proof.
  induction f as [|f (IHv & IHe & IHm)]; [by repeat split|].
  repeat split; intros s x r; cbn [parse_value parse_elements parse_members].
  - by apply value_step_consumes.
  - by apply elements_step_consumes.
  - by apply members_step_consumes.
Qed.

Lemma parse_more_fuel (f : nat) :
  (∀ s, (2 * String.length s + 1 ≤ f)%nat →
        parse_value (S f) s = parse_value f s) ∧
  (∀ s, (2 * String.length s + 2 ≤ f)%nat →
        parse_elements (S f) s = parse_elements f s) ∧
  (∀ s, (2 * String.length s + 2 ≤ f)%nat →
        parse_members (S f) s = parse_members f s).
Proof.
  induction f as [|f (IHv & IHe & IHm)]; [repeat split; intros; lia|].
  destruct (parse_consumes f) as (Cv & _ & _).
  destruct (parse_consumes (S f)) as (Cv' & _ & _).
  repeat split; intros s Hlen.
  - change (value_step (parse_elements (S f)) (parse_members (S f)) s
            = value_step (parse_elements f) (parse_members f) s).
    apply value_step_ext; intros r Hr; [apply IHe|apply IHm]; lia.
  - change (elements_step (parse_value (S f)) (parse_elements (S f)) s
            = elements_step (parse_value f) (parse_elements f) s).
    apply elements_step_ext; [exact Cv'|apply IHv; lia|].
    intros r Hr. apply IHe. lia.
  - change (members_step (parse_value (S f)) (parse_members (S f)) s
            = members_step (parse_value f) (parse_members f) s).
    apply members_step_ext; [exact Cv'| |].
    + intros r Hr. apply IHv. lia.
    + intros r Hr. apply IHm. lia.
Qed.

(** More fuel than [parse] starts with changes nothing. *)
Lemma parse_fuel (f : nat) (data : string) :
  (2 * String.length data + 2 ≤ f)%nat →
  parse_value f data = parse_value (2 * String.length data + 2) data.
Proof.
  intros Hlen. induction f as [|f IH]; [lia|].
  destruct (decide (S f = 2 * String.length data + 2)%nat) as [->|Hne];
    [reflexivity|].
  destruct (parse_more_fuel f) as (Hv & _ & _).
  rewrite Hv by lia. apply IH. lia.
Qed.

(** ** The library models at work *)

Example Atoi_examples :
  Atoi "4" = inr 4%Z ∧ Atoi "-12" = inr (-12)%Z ∧ Atoi "+7" = inr 7%Z ∧
  Atoi "abc" = inl (NumError "abc" ErrSyntax) ∧
  Atoi "" = inl (NumError "" ErrSyntax) ∧
  Atoi "4 " = inl (NumError "4 " ErrSyntax) ∧
  Atoi "9223372036854775807" = inr 9223372036854775807%Z ∧
  Atoi "9223372036854775808" = inl (NumError "9223372036854775808" ErrRange).
Proof. repeat split; vm_compute; reflexivity. Qed.

Example parse_examples :
  parse "[1, -0.5e+10, true, false, null, [], {}, [[[[[[]]]]]]]"
  = Some (JArray [JNumber; JNumber; JBool true; JBool false; JNull; JArray [];
                  JObject [];
                  JArray [JArray [JArray [JArray [JArray [JArray []]]]]]]) ∧
  parse mytable_parameters = Some (JObject [("name", JString "mytable")]) ∧
  parse "" = None ∧ parse "{" = None ∧ parse "[1,]" = None ∧
  parse "01" = None ∧ parse "nul" = None ∧ parse "{} x" = None.
Proof. repeat split; vm_compute; reflexivity. Qed.

Example json_Unmarshal_examples :
  json_Unmarshal features_3_SSD
  = inr (Some (<["num_nodes" := "3"]> {[ "storage_type" := "SSD" ]})) ∧
  json_Unmarshal " { } " = inr (Some ∅) ∧
  json_Unmarshal "null" = inr None ∧
  json_Unmarshal ("{" +:+ quoted "name" +:+ ":null}")
  = inr (Some {[ "name" := "" ]}) ∧
  json_Unmarshal ("{" +:+ quoted "name" +:+ ":1}")
  = inl (UnmarshalTypeError JNumber "string") ∧
  json_Unmarshal "[]" = inl (UnmarshalTypeError (JArray []) "map[string]string") ∧
  json_Unmarshal "{" = inl SyntaxError.
Proof. repeat split; vm_compute; reflexivity. Qed.

Example json_Marshal_examples :
  json_Marshal {| InstanceId := "mytable" |} = inr mytable_details ∧
  json_Marshal {| InstanceId := "a<b" +:+ dq |}
  = inr ("{" +:+ quoted "instance_id" +:+ ":"
         +:+ quoted ("a" +:+ u_escape "003c" +:+ "b\" +:+ dq) +:+ "}").
Proof. repeat split; vm_compute; reflexivity. Qed.

(** ** What a run returns and which calls it makes *)
Section ProvisionRuns.
Variables (b : BigTableBroker) (instanceId : string)
          (details : ProvisionDetails) (plan : PlanDetails) (w : World).

(** The value and the log of a run of [Provision], case by case. *)
Lemma Provision_run :
  run (Provision b instanceId details plan) w =
  match unmarshalParameters details with
  | inl err =>
      (Returns (zero_ServiceInstanceDetails,
                Some (Errorf ("Error unmarshalling parameters: " +:+ err))),
       [])
  | inr None =>
      (Panics "assignment to entry in nil map",
       [CallInstanceNameWithSeparator "-"])
  | inr (Some g) =>
      let name := default (generated_name w "-") (g !! "name") in
      let pre :=
        match g !! "name" with
        | Some _ => []
        | None => [CallInstanceNameWithSeparator "-"]
        end in
      let new_client :=
        CallNewInstanceAdminClient (ProjectId b) [WithCustomUserAgent] in
      match json_Unmarshal (Features plan) with
      | inl err =>
          (Returns (zero_ServiceInstanceDetails,
                    Some (Errorf ("Error unmarshalling plan features: "
                                  +:+ err))),
           pre)
      | inr pd =>
          match client_error w (ProjectId b) [WithCustomUserAgent] with
          | Some err =>
              (Returns (zero_ServiceInstanceDetails,
                        Some (Errorf ("Error creating bigtable client: "
                                      +:+ err))),
               (pre ++ [new_client])%list)
          | None =>
              match Atoi (index pd "num_nodes") with
              | inl err =>
                  (Returns (zero_ServiceInstanceDetails,
                            Some (Errorf ("Error converting num_nodes to int: "
                                          +:+ err))),
                   (pre ++ [new_client])%list)
              | inr n =>
                  let ic :=
                    {| ic_InstanceId := name;
                       ic_ClusterId :=
                         match g !! "cluster_id" with
                         | Some u => u
                         | None =>
                             if (20 <? String.length name)%nat
                             then substring 0 20 name +:+ "-cluster"
                             else name +:+ "-cluster"
                         end;
                       ic_NumNodes := int32 n;
                       ic_StorageType :=
                         default zero_StorageType
                           (StorageTypes !! index pd "storage_type");
                       ic_Zone := default "us-east1-b" (g !! "zone");
                       ic_DisplayName := default name (g !! "display_name") |} in
                  let log := (pre ++ [new_client; CallCreateInstance ic])%list in
                  match create_error w ic with
                  | Some err =>
                      (Returns (zero_ServiceInstanceDetails,
                                Some (Errorf ("Error creating new instance: "
                                              +:+ err))),
                       log)
                  | None =>
                      (Returns
                         ({| Name := name; Url := ""; Location := "";
                             OtherDetails :=
                               "{" +:+ quoted "instance_id" +:+ ":"
                               +:+ encode_string name +:+ "}" |},
                          None),
                       log)
                  end
              end
          end
      end
  end.
Proof.
  unfold run, Provision.
  destruct (unmarshalParameters details) as [e|[g|]]; [reflexivity | | reflexivity].
  unfold comma_ok at 1.
  destruct (g !! "name") as [nm|] eqn:Hname.
  - unfold bind at 1, ret at 1.
    destruct (json_Unmarshal (Features plan)) as [e|pd]; [reflexivity|].
    unfold bind at 1, NewInstanceAdminClient, call at 1.
    destruct (client_error w (ProjectId b) [WithCustomUserAgent]); [reflexivity|].
    destruct (Atoi (index pd "num_nodes")) as [e|n]; [reflexivity|].
    unfold index, comma_ok. rewrite Hname. cbn [default].
    unfold bind, CreateInstance, call.
    destruct (g !! "cluster_id"), (g !! "zone"), (g !! "display_name");
      cbn [default id]; destruct (create_error w _); reflexivity.
  - unfold bind at 1, InstanceNameWithSeparator, call at 1, assign, bind at 1, ret at 1.
    destruct (json_Unmarshal (Features plan)) as [e|pd]; [reflexivity|].
    unfold bind at 1, NewInstanceAdminClient, call at 1.
    destruct (client_error w (ProjectId b) [WithCustomUserAgent]); [reflexivity|].
    destruct (Atoi (index pd "num_nodes")) as [e|n]; [reflexivity|].
    unfold index, comma_ok.
    rewrite lookup_insert_eq, !lookup_insert_ne by discriminate.
    cbn [default].
    unfold bind, CreateInstance, call.
    destruct (g !! "cluster_id"), (g !! "zone"), (g !! "display_name");
      cbn [default id]; destruct (create_error w _); reflexivity.
Qed.
End ProvisionRuns.

Section DeprovisionRuns.
Variables (b : BigTableBroker) (instanceID : string)
          (details : DeprovisionDetails) (w : World).

(** The value and the log of a run of [Deprovision], case by case. *)
Lemma Deprovision_run :
  run (Deprovision b instanceID details) w =
  let new_client := CallNewInstanceAdminClient (ProjectId b) [] in
  match client_error w (ProjectId b) [] with
  | Some err =>
      (Returns (Some (Errorf ("Error creating BigQuery client: " +:+ err))),
       [new_client])
  | None =>
      match First (DbConnection w) instanceID with
      | inl _ =>
          (Returns (Some ErrInstanceDoesNotExist),
           [new_client; CallFirst instanceID])
      | inr instance =>
          (Returns
             match delete_error w (Name instance) with
             | Some err => Some (Errorf ("Error deleting dataset: " +:+ err))
             | None => None
             end,
           [new_client; CallFirst instanceID;
            CallDeleteInstance (Name instance)])
      end
  end.
Proof.
  unfold run, Deprovision, bind, NewInstanceAdminClient, DbConnection_First,
    DeleteInstance, call, ret.
  destruct (client_error w (ProjectId b) []); [reflexivity|].
  destruct (First (DbConnection w) instanceID) as [e|instance]; [reflexivity|].
  destruct (delete_error w (Name instance)); reflexivity.
Qed.
End DeprovisionRuns.

(** A create call is issued as soon as decoding, client creation and the
    node-count conversion succeed. *)
Lemma Provision_issues_create (b : BigTableBroker) (instanceId : string)
    (details : ProvisionDetails) (plan : PlanDetails) (w : World)
    (g : gmap string string) (pd : gomap) (n : Z) :
  unmarshalParameters details = inr (Some g) →
  json_Unmarshal (Features plan) = inr pd →
  client_error w (ProjectId b) [WithCustomUserAgent] = None →
  Atoi (index pd "num_nodes") = inr n →
  ∃ ic, CallCreateInstance ic ∈ calls (run (Provision b instanceId details plan) w).
Proof.
  intros Hg Hpd Hc Hn. rewrite Provision_run, Hg, Hpd, Hc, Hn. cbv zeta.
  eexists. destruct (create_error w _); unfold calls; cbn [snd];
    rewrite elem_of_app; right; apply list_elem_of_further, list_elem_of_here.
Qed.

(** The configuration carried by any create call of a run. *)
Lemma Provision_create_inv (b : BigTableBroker) (instanceId : string)
    (details : ProvisionDetails) (plan : PlanDetails) (w : World)
    (ic : InstanceConf) :
  CallCreateInstance ic ∈ calls (run (Provision b instanceId details plan) w) →
  ∃ (g : gmap string string) (pd : gomap) (n : Z),
    unmarshalParameters details = inr (Some g) ∧
    json_Unmarshal (Features plan) = inr pd ∧
    client_error w (ProjectId b) [WithCustomUserAgent] = None ∧
    Atoi (index pd "num_nodes") = inr n ∧
    let name := default (generated_name w "-") (g !! "name") in
    ic = {| ic_InstanceId := name;
            ic_ClusterId :=
              match g !! "cluster_id" with
              | Some u => u
              | None =>
                  if (20 <? String.length name)%nat
                  then substring 0 20 name +:+ "-cluster"
                  else name +:+ "-cluster"
              end;
            ic_NumNodes := int32 n;
            ic_StorageType :=
              default zero_StorageType
                (StorageTypes !! index pd "storage_type");
            ic_Zone := default "us-east1-b" (g !! "zone");
            ic_DisplayName := default name (g !! "display_name") |}.
Proof.
  rewrite Provision_run. unfold calls.
  destruct (unmarshalParameters details) as [e|[g|]];
    [cbn; intros H; inversion H| |cbn; rewrite list_elem_of_singleton; discriminate].
  cbv zeta.
  assert (Hpre : ∀ c, c ∈ match g !! "name" with
                          | Some _ => []
                          | None => [CallInstanceNameWithSeparator "-"]
                          end → c = CallInstanceNameWithSeparator "-").
  { intros c. destruct (g !! "name"); [intros H; inversion H|].
    by rewrite list_elem_of_singleton. }
  destruct (json_Unmarshal (Features plan)) as [e|pd].
  { cbn [snd]. intros H%Hpre. discriminate. }
  destruct (client_error w (ProjectId b) [WithCustomUserAgent]).
  { cbn [snd]. rewrite elem_of_app, list_elem_of_singleton.
    intros [H%Hpre|H]; discriminate. }
  destruct (Atoi (index pd "num_nodes")) as [e|n] eqn:Hn.
  { cbn [snd]. rewrite elem_of_app, list_elem_of_singleton.
    intros [H%Hpre|H]; discriminate. }
  intros H. exists g, pd, n. repeat (split; [reflexivity|]).
  split; [exact Hn|].
  destruct (create_error w _); cbn [snd] in H;
    rewrite elem_of_app, elem_of_cons, list_elem_of_singleton in H;
    destruct H as [H%Hpre|[H|H]]; try discriminate; by injection H.
Qed.

(** ** The decoder refuses what is not a map of strings *)


(** Raw parameters that are the JSON [null] decode without error to a
    [nil] map; the name is then missing, and the assignment of the
    generated one panics. *)
Lemma Provision_null_parameters (b : BigTableBroker) (instanceId : string)
    (plan : PlanDetails) (w : World) :
  run (Provision b instanceId {| RawParameters := "null" |} plan) w
  = (Panics "assignment to entry in nil map",
     [CallInstanceNameWithSeparator "-"]).
Proof. rewrite Provision_run. reflexivity. Qed.

(** ** The worked example *)

(** C1. Take the raw parameters that only name the instance mytable and
    the plan features asking for 3 nodes on SSD.  In every world the run
    of [Provision] is the following.  If the administrative client cannot
    be created, its error is returned and no create call is made.
    Otherwise exactly one create call is made, and it carries the instance
    name mytable, the cluster id mytable-cluster, the zone us-east1-b and
    the display name mytable (with 3 nodes on SSD); if that call fails its
    error is returned, and if it succeeds the record returned has the
    [Name] mytable, empty [Url] and [Location], and [OtherDetails] whose
    text decodes to the one member [instance_id], mytable. *)
Theorem Provision_mytable (b : BigTableBroker) (instanceId : string) (w : World) :
  let new_client :=
    CallNewInstanceAdminClient (ProjectId b) [WithCustomUserAgent] in
  let conf :=
    {| ic_InstanceId := "mytable";
       ic_ClusterId := "mytable-cluster";
       ic_NumNodes := 3;
       ic_StorageType := SSD;
       ic_Zone := "us-east1-b";
       ic_DisplayName := "mytable" |} in
  run (Provision b instanceId {| RawParameters := mytable_parameters |}
         {| Features := features_3_SSD |}) w =
  match client_error w (ProjectId b) [WithCustomUserAgent] with
  | Some err =>
      (Returns (zero_ServiceInstanceDetails,
                Some (Errorf ("Error creating bigtable client: " +:+ err))),
       [new_client])
  | None =>
      (Returns
         match create_error w conf with
         | Some err =>
             (zero_ServiceInstanceDetails,
              Some (Errorf ("Error creating new instance: " +:+ err)))
         | None =>
             ({| Name := "mytable"; Url := ""; Location := "";
                 OtherDetails := mytable_details |}, None)
         end,
       [new_client; CallCreateInstance conf])
  end
  ∧ json_Unmarshal mytable_details = inr (Some {[ "instance_id" := "mytable" ]}).
Proof.
  intros new_client conf. split; [|vm_compute; reflexivity].
  rewrite Provision_run.
  replace (unmarshalParameters {| RawParameters := mytable_parameters |})
    with (@inr liberr gomap (Some {[ "name" := "mytable" ]}))
    by (vm_compute; reflexivity).
  replace (json_Unmarshal (Features {| Features := features_3_SSD |}))
    with (@inr liberr gomap
            (Some (<["num_nodes" := "3"]> {[ "storage_type" := "SSD" ]})))
    by (vm_compute; reflexivity).
  cbv zeta.
  destruct (client_error w (ProjectId b) [WithCustomUserAgent]); [reflexivity|].
  replace (Atoi _) with (@inr liberr Z 3%Z) by (vm_compute; reflexivity).
  match goal with
  | |- context [create_error w ?c] =>
      replace c with conf by (vm_compute; reflexivity)
  end.
  destruct (create_error w conf); vm_compute; reflexivity.
Qed.

(** ** Cluster id *)


(** C7. A [cluster_id] among the raw parameters is the cluster id of every
    create call, whatever the name and its length; and such a call is
    issued once the plan decodes, the client is created and the node
    count converts. *)
Theorem user_cluster_id_overrides (b : BigTableBroker) (instanceId : string)
    (details : ProvisionDetails) (plan : PlanDetails) (w : World)
    (g : gmap string string) (userClusterId : string) :
  unmarshalParameters details = inr (Some g) →
  g !! "cluster_id" = Some userClusterId →
  let r := run (Provision b instanceId details plan) w in
  (∀ ic, CallCreateInstance ic ∈ calls r → ic_ClusterId ic = userClusterId) ∧
  (∀ pd n,
     json_Unmarshal (Features plan) = inr pd →
     client_error w (ProjectId b) [WithCustomUserAgent] = None →
     Atoi (index pd "num_nodes") = inr n →
     ∃ ic, CallCreateInstance ic ∈ calls r).
Proof.
  intros Hg Hcl r. split.
  - intros ic (g' & pd & n & Hg' & _ & _ & _ & ->)%Provision_create_inv.
    rewrite Hg in Hg'. injection Hg' as <-. by rewrite Hcl.
  - intros pd n Hpd Hc Hn. by eapply Provision_issues_create.
Qed.

(** ** Deprovision *)

(** C3, as amended.  When no row is persisted under the instance id, no
    call of [Deprovision] reaches the provider's create or delete
    operation, and the error returned is the one for an instance that does
    not exist provided the administrative client, which is created before
    the lookup, could be created. *)
Theorem Deprovision_absent_record (b : BigTableBroker) (instanceID : string)
    (details : DeprovisionDetails) (w : World) :
  rows (DbConnection w) !! instanceID = None →
  let r := run (Deprovision b instanceID details) w in
  (∀ c, c ∈ calls r → is_provider_call c = false) ∧
  (client_error w (ProjectId b) [] = None →
   outcome r = Returns (Some ErrInstanceDoesNotExist)).
Proof.
  intros Hrow r. subst r. rewrite Deprovision_run. cbv zeta.
  assert (Hfirst : ∃ e, First (DbConnection w) instanceID = inl e).
  { unfold First. rewrite Hrow. destruct (fault (DbConnection w)); eauto. }
  destruct Hfirst as [e ->].
  destruct (client_error w (ProjectId b) []); split; try discriminate;
    try reflexivity; unfold calls; cbn [snd]; intros c;
    rewrite ?elem_of_cons, elem_of_nil; intros H; intuition (subst; reflexivity).
Qed.

(** C3, as stated, fails where the administrative client cannot be
    created: the id has no row, and the error returned is the one of the
    client. *)
Lemma Deprovision_absent_record_client_error :
  rows (DbConnection world_no_client) !! "guid-2" = None ∧
  outcome (run (Deprovision sample_broker "guid-2" NoDeprovisionDetails)
             world_no_client) =
  Returns (Some (Errorf "Error creating BigQuery client: could not find default credentials")) ∧
  outcome (run (Deprovision sample_broker "guid-2" NoDeprovisionDetails)
             world_no_client) ≠
  Returns (Some ErrInstanceDoesNotExist).
Proof.
  split; [reflexivity|]. split; [reflexivity|]. discriminate.
Qed.

(** C4. When a row is persisted under the instance id, every delete call
    of [Deprovision] names the instance by the [Name] of that row; and
    with a client created and a working connection, the calls are the
    client creation, the lookup and that one delete call. *)
Theorem Deprovision_deletes_persisted_name (b : BigTableBroker)
    (instanceID : string) (details : DeprovisionDetails) (w : World)
    (instance : ServiceInstanceDetails) :
  rows (DbConnection w) !! instanceID = Some instance →
  let r := run (Deprovision b instanceID details) w in
  (∀ name, CallDeleteInstance name ∈ calls r → name = Name instance) ∧
  (client_error w (ProjectId b) [] = None →
   fault (DbConnection w) = None →
   calls r = [CallNewInstanceAdminClient (ProjectId b) [];
              CallFirst instanceID;
              CallDeleteInstance (Name instance)]).
Proof.
  intros Hrow r. subst r. rewrite Deprovision_run. cbv zeta.
  unfold First. rewrite Hrow.
  destruct (client_error w (ProjectId b) []), (fault (DbConnection w));
    unfold calls; cbn [snd]; (split; [|try discriminate; try reflexivity]);
    intros name; rewrite ?elem_of_cons, elem_of_nil;
    intros H; intuition (try discriminate; congruence).
Qed.

(** C10. Whenever [Deprovision] performs the lookup and the lookup fails,
    for whatever reason, the error returned is the one for an instance
    that does not exist, and the provider is not called. *)
Theorem Deprovision_lookup_failure (b : BigTableBroker) (instanceID : string)
    (details : DeprovisionDetails) (w : World) (err : liberr) :
  let r := run (Deprovision b instanceID details) w in
  CallFirst instanceID ∈ calls r →
  First (DbConnection w) instanceID = inl err →
  outcome r = Returns (Some ErrInstanceDoesNotExist) ∧
  (∀ c, c ∈ calls r → is_provider_call c = false).
Proof.
  intros r. subst r. rewrite Deprovision_run. cbv zeta. intros Hin ->.
  destruct (client_error w (ProjectId b) []).
  - unfold calls in Hin. cbn [snd] in Hin.
    apply list_elem_of_singleton in Hin. discriminate.
  - split; [reflexivity|]. unfold calls. cbn [snd]. intros c.
    rewrite ?elem_of_cons, elem_of_nil. intros H; intuition (subst; reflexivity).
Qed.

(** ** Node count and storage type *)

(** C5, as amended.  Take a call whose raw parameters decode to a map,
    whose plan features decode, and whose administrative client is
    created.  If [num_nodes] is ["4"], the one create call carries the
    node count 4.  If [num_nodes] does not convert, ["abc"] for one, the
    call returns the zero record with the conversion error built from the
    error of [Atoi], and issues no create call. *)
Theorem num_nodes_conversion (b : BigTableBroker) (instanceId : string)
    (details : ProvisionDetails) (plan : PlanDetails) (w : World)
    (g : gmap string string) (pd : gomap) :
  unmarshalParameters details = inr (Some g) →
  json_Unmarshal (Features plan) = inr pd →
  client_error w (ProjectId b) [WithCustomUserAgent] = None →
  let r := run (Provision b instanceId details plan) w in
  (index pd "num_nodes" = "4" →
   (∃ ic, CallCreateInstance ic ∈ calls r) ∧
   (∀ ic, CallCreateInstance ic ∈ calls r → ic_NumNodes ic = 4%Z)) ∧
  (∀ err, Atoi (index pd "num_nodes") = inl err →
   outcome r =
     Returns (zero_ServiceInstanceDetails,
              Some (Errorf ("Error converting num_nodes to int: " +:+ err))) ∧
   (∀ ic, CallCreateInstance ic ∉ calls r)) ∧
  Atoi "4" = inr 4%Z ∧
  Atoi "abc" = inl (NumError "abc" ErrSyntax).
Proof.
  intros Hg Hpd Hc r. split; [|split; [|split; reflexivity]].
  - intros H4. split.
    + eapply Provision_issues_create; eauto. by rewrite H4.
    + intros ic (g' & pd' & n & _ & Hpd' & _ & Hn & ->)%Provision_create_inv.
      rewrite Hpd in Hpd'. injection Hpd' as <-. rewrite H4 in Hn.
      injection Hn as <-. reflexivity.
  - intros err Herr. split.
    + subst r. by rewrite Provision_run, Hg, Hpd, Hc, Herr.
    + intros ic (g' & pd' & n & _ & Hpd' & _ & Hn & _)%Provision_create_inv.
      rewrite Hpd in Hpd'. injection Hpd' as <-. congruence.
Qed.

(** C5, as stated, fails where an earlier step of [Provision] returns
    first.  With [num_nodes] set to ["abc"]: where the administrative
    client cannot be created the error returned is the one of the client,
    and where the raw parameters do not decode it is the one of the
    decoder; neither is a conversion error. *)
Lemma num_nodes_abc_other_errors :
  json_Unmarshal features_abc_SSD
  = inr (Some (<["num_nodes" := "abc"]> {[ "storage_type" := "SSD" ]})) ∧
  run (Provision sample_broker "guid-1" {| RawParameters := mytable_parameters |}
         {| Features := features_abc_SSD |}) world_no_client =
  (Returns (zero_ServiceInstanceDetails,
            Some (Errorf "Error creating bigtable client: could not find default credentials")),
   [CallNewInstanceAdminClient "my-project" [WithCustomUserAgent]]) ∧
  run (Provision sample_broker "guid-1" {| RawParameters := "{" |}
         {| Features := features_abc_SSD |}) world_ok =
  (Returns (zero_ServiceInstanceDetails,
            Some (Errorf ("Error unmarshalling parameters: " +:+ SyntaxError))),
   []) ∧
  ∀ err,
    outcome (run (Provision sample_broker "guid-1"
                    {| RawParameters := mytable_parameters |}
                    {| Features := features_abc_SSD |}) world_no_client) ≠
    Returns (zero_ServiceInstanceDetails,
             Some (Errorf ("Error converting num_nodes to int: " +:+ err))).
Proof.
  split; [vm_compute; reflexivity|]. split; [vm_compute; reflexivity|].
  split; [vm_compute; reflexivity|].
  intros err. vm_compute. intros [=].
Qed.

(** C6. With decoded plan features, every create call carries the storage
    type looked up under [storage_type]: [SSD] for ["SSD"], [HDD] for
    ["HDD"], and the zero value for anything else, an absent key
    included; the conversion cannot fail, and the create call is issued
    whenever the rest of the resolution succeeds. *)
Theorem storage_type_lookup (b : BigTableBroker) (instanceId : string)
    (details : ProvisionDetails) (plan : PlanDetails) (w : World)
    (pd : gomap) :
  json_Unmarshal (Features plan) = inr pd →
  let r := run (Provision b instanceId details plan) w in
  (∀ ic, CallCreateInstance ic ∈ calls r →
     (index pd "storage_type" = "SSD" → ic_StorageType ic = SSD) ∧
     (index pd "storage_type" = "HDD" → ic_StorageType ic = HDD) ∧
     (index pd "storage_type" ≠ "SSD" → index pd "storage_type" ≠ "HDD" →
      ic_StorageType ic = zero_StorageType) ∧
     (comma_ok pd "storage_type" = None →
      ic_StorageType ic = zero_StorageType)) ∧
  (∀ g n,
     unmarshalParameters details = inr (Some g) →
     client_error w (ProjectId b) [WithCustomUserAgent] = None →
     Atoi (index pd "num_nodes") = inr n →
     ∃ ic, CallCreateInstance ic ∈ calls r).
Proof.
  intros Hpd r. split.
  - intros ic (g' & pd' & n & _ & Hpd' & _ & _ & ->)%Provision_create_inv.
    rewrite Hpd in Hpd'. injection Hpd' as <-. cbn [ic_StorageType].
    assert (Hother : index pd "storage_type" ≠ "SSD" →
                     index pd "storage_type" ≠ "HDD" →
                     default zero_StorageType
                       (StorageTypes !! index pd "storage_type")
                     = zero_StorageType).
    { intros H1 H2. unfold StorageTypes.
      by rewrite !lookup_insert_ne, lookup_empty by congruence. }
    repeat split.
    + by intros ->.
    + by intros ->.
    + exact Hother.
    + intros Habs. unfold index in *. rewrite Habs in *.
      by apply Hother.
  - intros g n Hg Hc Hn. by eapply Provision_issues_create.
Qed.

(** ** Raw parameters *)


(** ** Error paths *)

(** C9. Whenever [Provision] returns an error, the record returned with it
    is the zero value. *)
Theorem Provision_error_zero_value (b : BigTableBroker) (instanceId : string)
    (details : ProvisionDetails) (plan : PlanDetails) (w : World)
    (d : ServiceInstanceDetails) (e : error) :
  outcome (run (Provision b instanceId details plan) w) = Returns (d, Some e) →
  d = zero_ServiceInstanceDetails.
Proof.
  rewrite Provision_run. unfold outcome.
  destruct (unmarshalParameters details) as [?|[g|]]; [by intros [= <- _]| |done].
  cbv zeta.
  destruct (json_Unmarshal (Features plan)); [by intros [= <- _]|].
  destruct (client_error w (ProjectId b) [WithCustomUserAgent]);
    [by intros [= <- _]|].
  destruct (Atoi _); [by intros [= <- _]|].
  destruct (create_error w _); [by intros [= <- _]|done].
Qed.

(** ** The theorems at sample inputs *)


Lemma user_cluster_id_overrides_witness :
  ∃ ic,
    CallCreateInstance ic ∈
      calls (run (Provision sample_broker "guid-1"
                    {| RawParameters := long_name_cluster_parameters |}
                    {| Features := features_3_SSD |}) world_ok) ∧
    ic_ClusterId ic = "mine".
Proof.
  destruct (user_cluster_id_overrides sample_broker "guid-1"
              {| RawParameters := long_name_cluster_parameters |}
              {| Features := features_3_SSD |} world_ok
              (<["name" := long_name]> {[ "cluster_id" := "mine" ]}) "mine")
    as [Hall Hex].
  - vm_compute; reflexivity.
  - vm_compute; reflexivity.
  - destruct (Hex (Some (<["num_nodes" := "3"]> {[ "storage_type" := "SSD" ]}))
                3%Z) as [ic Hic]; [vm_compute; reflexivity ..|].
    exists ic. split; [exact Hic|]. exact (Hall ic Hic).
Defined.

Lemma Deprovision_absent_record_witness :
  outcome (run (Deprovision sample_broker "guid-2" NoDeprovisionDetails)
             world_ok) =
  Returns (Some ErrInstanceDoesNotExist).
Proof.
  apply (Deprovision_absent_record sample_broker "guid-2" NoDeprovisionDetails
           world_ok); vm_compute; reflexivity.
Defined.

Lemma Deprovision_deletes_persisted_name_witness :
  calls (run (Deprovision sample_broker "guid-1" NoDeprovisionDetails) world_ok)
  = [CallNewInstanceAdminClient "my-project" []; CallFirst "guid-1";
     CallDeleteInstance "foo"].
Proof.
  apply (Deprovision_deletes_persisted_name sample_broker "guid-1"
           NoDeprovisionDetails world_ok foo_record); vm_compute; reflexivity.
Defined.

Lemma Deprovision_lookup_failure_witness :
  rows (DbConnection world_db_down) !! "guid-1" = Some foo_record ∧
  outcome (run (Deprovision sample_broker "guid-1" NoDeprovisionDetails)
             world_db_down) =
  Returns (Some ErrInstanceDoesNotExist).
Proof.
  split; [vm_compute; reflexivity|].
  apply (Deprovision_lookup_failure sample_broker "guid-1" NoDeprovisionDetails
           world_db_down "connection refused").
  - vm_compute. apply list_elem_of_further, list_elem_of_here.
  - vm_compute; reflexivity.
Defined.

Lemma num_nodes_conversion_witness :
  outcome (run (Provision sample_broker "guid-1"
                  {| RawParameters := mytable_parameters |}
                  {| Features := features_abc_SSD |}) world_ok) =
  Returns (zero_ServiceInstanceDetails,
           Some (Errorf ("Error converting num_nodes to int: "
                         +:+ NumError "abc" ErrSyntax))) ∧
  ∃ ic,
    CallCreateInstance ic ∈
      calls (run (Provision sample_broker "guid-1"
                    {| RawParameters := mytable_parameters |}
                    {| Features := features_4_HDD |}) world_ok) ∧
    ic_NumNodes ic = 4%Z.
Proof.
  split.
  - apply (num_nodes_conversion sample_broker "guid-1"
             {| RawParameters := mytable_parameters |}
             {| Features := features_abc_SSD |} world_ok
             {[ "name" := "mytable" ]}
             (Some (<["num_nodes" := "abc"]> {[ "storage_type" := "SSD" ]})));
      vm_compute; reflexivity.
  - destruct (num_nodes_conversion sample_broker "guid-1"
                {| RawParameters := mytable_parameters |}
                {| Features := features_4_HDD |} world_ok
                {[ "name" := "mytable" ]}
                (Some (<["num_nodes" := "4"]> {[ "storage_type" := "HDD" ]})))
      as [H4 _]; [vm_compute; reflexivity ..|].
    destruct H4 as [[ic Hic] Hall]; [vm_compute; reflexivity|].
    exists ic. split; [exact Hic|exact (Hall ic Hic)].
Defined.

Lemma storage_type_lookup_witness :
  ∃ ic,
    CallCreateInstance ic ∈
      calls (run (Provision sample_broker "guid-1"
                    {| RawParameters := mytable_parameters |}
                    {| Features := features_4_HDD |}) world_ok) ∧
    ic_StorageType ic = HDD.
Proof.
  destruct (storage_type_lookup sample_broker "guid-1"
              {| RawParameters := mytable_parameters |}
              {| Features := features_4_HDD |} world_ok
              (Some (<["num_nodes" := "4"]> {[ "storage_type" := "HDD" ]})))
    as [Hall Hex].
  - vm_compute; reflexivity.
  - destruct (Hex {[ "name" := "mytable" ]} 4%Z) as [ic Hic];
      [vm_compute; reflexivity ..|].
    exists ic. split; [exact Hic|].
    destruct (Hall ic Hic) as (_ & Hhdd & _). apply Hhdd.
    vm_compute; reflexivity.
Defined.


Lemma Provision_error_zero_value_witness :
  ∃ d e,
    outcome (run (Provision sample_broker "guid-1"
                    {| RawParameters := mytable_parameters |}
                    {| Features := features_3_SSD |}) world_no_client)
    = Returns (d, Some e) ∧
    d = zero_ServiceInstanceDetails.
Proof.
  exists zero_ServiceInstanceDetails,
    (Errorf "Error creating bigtable client: could not find default credentials").
  assert (H : outcome (run (Provision sample_broker "guid-1"
                              {| RawParameters := mytable_parameters |}
                              {| Features := features_3_SSD |}) world_no_client)
              = Returns (zero_ServiceInstanceDetails,
                         Some (Errorf "Error creating bigtable client: could not find default credentials")))
    by (vm_compute; reflexivity).
  split; [exact H|].
  exact (Provision_error_zero_value _ _ _ _ _ _ _ H).
Defined.

(** * Further properties of the broker *)

(** ** Zone, display name and instance name *)

(** X1. Every create call carries the [zone] of the raw parameters when
    there is one, the empty string included, and [us-east1-b] otherwise. *)
Theorem zone_default_and_override (b : BigTableBroker) (instanceId : string)
    (details : ProvisionDetails) (plan : PlanDetails) (w : World)
    (g : gmap string string) (ic : InstanceConf) :
  unmarshalParameters details = inr (Some g) →
  CallCreateInstance ic ∈ calls (run (Provision b instanceId details plan) w) →
  (∀ userZone, g !! "zone" = Some userZone → ic_Zone ic = userZone) ∧
  (g !! "zone" = None → ic_Zone ic = "us-east1-b").
Proof.
  intros Hg (g' & pd & n & Hg' & _ & _ & _ & ->)%Provision_create_inv.
  rewrite Hg in Hg'. injection Hg' as <-. cbn [ic_Zone].
  split; [intros z ->|intros ->]; reflexivity.
Qed.

(** X2. Every create call carries the [display_name] of the raw parameters
    when there is one, and otherwise the name it gives the instance. *)
Theorem display_name_default_and_override (b : BigTableBroker)
    (instanceId : string) (details : ProvisionDetails) (plan : PlanDetails)
    (w : World) (g : gmap string string) (ic : InstanceConf) :
  unmarshalParameters details = inr (Some g) →
  CallCreateInstance ic ∈ calls (run (Provision b instanceId details plan) w) →
  (∀ userDisplayName, g !! "display_name" = Some userDisplayName →
     ic_DisplayName ic = userDisplayName) ∧
  (g !! "display_name" = None → ic_DisplayName ic = ic_InstanceId ic).
Proof.
  intros Hg (g' & pd & n & Hg' & _ & _ & _ & ->)%Provision_create_inv.
  rewrite Hg in Hg'. injection Hg' as <-. cbn [ic_DisplayName ic_InstanceId].
  split; [intros z ->|intros ->]; reflexivity.
Qed.

(** X3. A [name] among the raw parameters, the empty string included, is
    used as it is: the name generator is not called, every create call
    names the instance by it and a successful call returns it as [Name].
    Without one, the generator is called, with the separator [-], as the
    first call of the run and only then, and its answer takes the place of
    the name. *)
Theorem instance_name_resolution (b : BigTableBroker) (instanceId : string)
    (details : ProvisionDetails) (plan : PlanDetails) (w : World)
    (g : gmap string string) :
  unmarshalParameters details = inr (Some g) →
  let r := run (Provision b instanceId details plan) w in
  let uses (name : string) :=
    (∀ ic, CallCreateInstance ic ∈ calls r → ic_InstanceId ic = name) ∧
    (∀ d, outcome r = Returns (d, None) → Name d = name) in
  (∀ name, g !! "name" = Some name →
     (∀ sep, CallInstanceNameWithSeparator sep ∉ calls r) ∧ uses name) ∧
  (g !! "name" = None →
     (∃ rest, calls r = CallInstanceNameWithSeparator "-" :: rest ∧
              ∀ sep, CallInstanceNameWithSeparator sep ∉ rest) ∧
     uses (generated_name w "-")).
Proof.
  intros Hg r uses.
  assert (Huses : uses (default (generated_name w "-") (g !! "name"))).
  { split.
    - intros ic (g' & pd & n & Hg' & _ & _ & _ & ->)%Provision_create_inv.
      rewrite Hg in Hg'. by injection Hg' as <-.
    - intros d. subst r. rewrite Provision_run, Hg. cbv zeta. unfold outcome.
      destruct (json_Unmarshal (Features plan)); [by intros [=]|].
      destruct (client_error w (ProjectId b) [WithCustomUserAgent]);
        [by intros [=]|].
      destruct (Atoi _); [by intros [=]|].
      destruct (create_error w _); cbn [fst]; [by intros [=]|].
      by intros [= <-]. }
  assert (Hlog : ∃ rest,
             calls r = (match g !! "name" with
                        | Some _ => []
                        | None => [CallInstanceNameWithSeparator "-"]
                        end ++ rest)%list ∧
             ∀ sep, CallInstanceNameWithSeparator sep ∉ rest).
  { subst r. rewrite Provision_run, Hg. cbv zeta. unfold calls.
    destruct (json_Unmarshal (Features plan)).
    { exists []. cbn [snd]. rewrite app_nil_r. split; [done|].
      intros sep. apply not_elem_of_nil. }
    destruct (client_error w (ProjectId b) [WithCustomUserAgent]).
    { eexists. cbn [snd]. split; [reflexivity|]. intros sep.
      rewrite list_elem_of_singleton. discriminate. }
    destruct (Atoi _).
    { eexists. cbn [snd]. split; [reflexivity|]. intros sep.
      rewrite list_elem_of_singleton. discriminate. }
    destruct (create_error w _); eexists; cbn [snd];
      (split; [reflexivity|]); intros sep;
      rewrite elem_of_cons, list_elem_of_singleton; intros [H|H]; discriminate. }
  destruct Hlog as (rest & Hcalls & Hrest). split.
  - intros name Hname. rewrite Hname in *. cbn [default] in Huses.
    split; [|exact Huses]. intros sep. rewrite Hcalls. apply Hrest.
  - intros Hname. rewrite Hname in *. cbn [default] in Huses.
    split; [|exact Huses]. exists rest. split; [exact Hcalls|exact Hrest].
Qed.

(** ** The derived cluster id is short *)

Lemma length_append (s t : string) :
  String.length (s +:+ t) = (String.length s + String.length t)%nat.
Proof.
  induction s as [|c s IH]; simpl; [reflexivity|]. f_equal. exact IH.
Qed.

Lemma length_substring_0 (n : nat) (s : string) :
  (n ≤ String.length s)%nat → String.length (substring 0 n s) = n.
Proof.
  revert s. induction n as [|n IH]; intros [|c s] Hn; cbn in *;
    try reflexivity; try lia. rewrite IH; [reflexivity|lia].
Qed.

(** X4. Without a [cluster_id] among the raw parameters, the cluster id of
    every create call is 8 bytes longer than the instance name cut to 20
    bytes: it never exceeds 28 bytes. *)
Theorem derived_cluster_id_length (b : BigTableBroker) (instanceId : string)
    (details : ProvisionDetails) (plan : PlanDetails) (w : World)
    (g : gmap string string) (ic : InstanceConf) :
  unmarshalParameters details = inr (Some g) →
  g !! "cluster_id" = None →
  CallCreateInstance ic ∈ calls (run (Provision b instanceId details plan) w) →
  String.length (ic_ClusterId ic)
  = (Nat.min (String.length (ic_InstanceId ic)) 20 + 8)%nat ∧
  (String.length (ic_ClusterId ic) ≤ 28)%nat.
Proof.
  intros Hg Hcl (g' & pd & n & Hg' & _ & _ & _ & ->)%Provision_create_inv.
  rewrite Hg in Hg'. injection Hg' as <-. rewrite Hcl.
  cbn [ic_ClusterId ic_InstanceId].
  set (name := default (generated_name w "-") (g !! "name")).
  assert (Hlen : String.length
                   (if (20 <? String.length name)%nat
                    then substring 0 20 name +:+ "-cluster"
                    else name +:+ "-cluster")
                 = (Nat.min (String.length name) 20 + 8)%nat).
  { destruct (20 <? String.length name)%nat eqn:Hlt.
    - apply Nat.ltb_lt in Hlt.
      rewrite length_append, length_substring_0 by lia. cbn. lia.
    - apply Nat.ltb_ge in Hlt. rewrite length_append. cbn. lia. }
  rewrite Hlen. split; [reflexivity|lia].
Qed.

(** ** Node count *)

Lemma parseUint_loop_nonneg (s : string) (n un : Z) :
  (0 ≤ n)%Z → parseUint_loop n s = inr un → (0 ≤ un)%Z.
Proof.
  revert n. induction s as [|c s IH]; intros n Hn; cbn [parseUint_loop].
  - by intros [= <-].
  - destruct (is_digit c) eqn:Hd; cbn [negb]; [|discriminate].
    destruct (_ <=? n)%Z; [discriminate|].
    destruct (maxUint64 <? _)%Z; [discriminate|].
    apply IH. unfold is_digit in Hd. apply andb_true_iff in Hd as [Hd _].
    apply Nat.leb_le in Hd. unfold digit_val. lia.
Qed.

Lemma Atoi_range (s : string) (n : Z) :
  Atoi s = inr n → (- 2 ^ 63 ≤ n < 2 ^ 63)%Z.
Proof.
  unfold Atoi. destruct (ParseInt s) as [e|m] eqn:Hp; [discriminate|].
  intros [= <-]. unfold ParseInt in Hp.
  destruct s as [|c r]; [discriminate|].
  destruct (ParseUint _) as [e|un] eqn:Hu; [discriminate|].
  assert (0 ≤ un)%Z.
  { unfold ParseUint in Hu.
    destruct (if (_ : bool) then r else String c r); [discriminate|].
    by eapply parseUint_loop_nonneg, Hu. }
  cbv zeta in Hp.
  destruct (Ascii.eqb c "-"); cbn [negb andb] in Hp.
  - destruct (2 ^ 63 <? un)%Z eqn:Hlt; [discriminate|].
    apply Z.ltb_ge in Hlt. injection Hp as <-. lia.
  - destruct (2 ^ 63 <=? un)%Z eqn:Hle; [discriminate|].
    apply Z.leb_gt in Hle. injection Hp as <-. lia.
Qed.

Lemma int32_spec (n : Z) :
  (- 2 ^ 31 ≤ int32 n < 2 ^ 31)%Z ∧
  (∃ k, int32 n = n + k * 2 ^ 32)%Z ∧
  ((- 2 ^ 31 ≤ n < 2 ^ 31)%Z → int32 n = n).
Proof.
  unfold int32. split; [|split].
  - pose proof (Z.mod_pos_bound (n + 2 ^ 31) (2 ^ 32)). lia.
  - exists (- ((n + 2 ^ 31) / 2 ^ 32))%Z.
    pose proof (Z.div_mod (n + 2 ^ 31) (2 ^ 32)). lia.
  - intros Hn. rewrite Z.mod_small by lia. lia.
Qed.

(** X5. The node count of every create call is the converted [num_nodes]
    cut to an [int32]: it lies between -2^31 and 2^31 - 1, differs from
    the converted value, which fits 64 bits, by a multiple of 2^32, and
    equals it when that value fits 32 bits. *)
Theorem node_count_is_int32 (b : BigTableBroker) (instanceId : string)
    (details : ProvisionDetails) (plan : PlanDetails) (w : World)
    (pd : gomap) (n : Z) (ic : InstanceConf) :
  json_Unmarshal (Features plan) = inr pd →
  Atoi (index pd "num_nodes") = inr n →
  CallCreateInstance ic ∈ calls (run (Provision b instanceId details plan) w) →
  (- 2 ^ 63 ≤ n < 2 ^ 63)%Z ∧
  (- 2 ^ 31 ≤ ic_NumNodes ic < 2 ^ 31)%Z ∧
  (∃ k, ic_NumNodes ic = n + k * 2 ^ 32)%Z ∧
  ((- 2 ^ 31 ≤ n < 2 ^ 31)%Z → ic_NumNodes ic = n).
Proof.
  intros Hpd Hn (g & pd' & n' & _ & Hpd' & _ & Hn' & ->)%Provision_create_inv.
  rewrite Hpd in Hpd'. injection Hpd' as <-.
  rewrite Hn in Hn'. injection Hn' as <-. cbn [ic_NumNodes].
  split; [by eapply Atoi_range|]. apply int32_spec.
Qed.

(** X6. Plan features that decode but hold no [num_nodes], the JSON [null]
    included, are read as an empty node count: once the raw parameters are
    decoded and the client is created, [Provision] returns the zero record
    and the conversion error for the empty string, and makes no create
    call. *)
Theorem missing_num_nodes (b : BigTableBroker) (instanceId : string)
    (details : ProvisionDetails) (plan : PlanDetails) (w : World)
    (g : gmap string string) (pd : gomap) :
  unmarshalParameters details = inr (Some g) →
  json_Unmarshal (Features plan) = inr pd →
  comma_ok pd "num_nodes" = None →
  client_error w (ProjectId b) [WithCustomUserAgent] = None →
  let r := run (Provision b instanceId details plan) w in
  outcome r =
    Returns (zero_ServiceInstanceDetails,
             Some (Errorf ("Error converting num_nodes to int: "
                           +:+ NumError "" ErrSyntax))) ∧
  (∀ c, c ∈ calls r → is_provider_call c = false).
Proof.
  intros Hg Hpd Hn Hc r. subst r. rewrite Provision_run, Hg, Hpd, Hc.
  cbv zeta. unfold index. rewrite Hn.
  change (Atoi "") with (@inl liberr Z (NumError "" ErrSyntax)).
  split; [reflexivity|]. unfold calls. cbn [snd]. intros c.
  rewrite elem_of_app, list_elem_of_singleton.
  destruct (g !! "name"); rewrite ?elem_of_nil, ?list_elem_of_singleton;
    intros [H|H]; subst; done.
Qed.

(** ** Plan features *)

(** X7. Plan features that do not decode make [Provision] return the zero
    record and the error of the plan decoder before any client is
    created: the only call such a run can have made is the one to the
    name generator.  The empty string is among them: unlike raw
    parameters, plan features have no empty case. *)
Theorem plan_features_decoding (b : BigTableBroker) (instanceId : string)
    (details : ProvisionDetails) (plan : PlanDetails) (w : World)
    (g : gmap string string) :
  unmarshalParameters details = inr (Some g) →
  let r := run (Provision b instanceId details plan) w in
  (∀ err, json_Unmarshal (Features plan) = inl err →
     outcome r =
       Returns (zero_ServiceInstanceDetails,
                Some (Errorf ("Error unmarshalling plan features: " +:+ err))) ∧
     (∀ c, c ∈ calls r → c = CallInstanceNameWithSeparator "-")) ∧
  (Features plan = "" → json_Unmarshal (Features plan) = inl SyntaxError).
Proof.
  intros Hg r. split.
  - intros err Herr. subst r. rewrite Provision_run, Hg, Herr. cbv zeta.
    split; [reflexivity|]. unfold calls. cbn [snd]. intros c.
    destruct (g !! "name"); [by rewrite elem_of_nil|].
    by rewrite list_elem_of_singleton.
  - by intros ->.
Qed.

(** ** Success, failure and the calls of a run *)

(** X8. [Provision] returns without error exactly when it has made a create
    call that the provider accepted; the record returned then has the
    instance name of that call as [Name] and empty [Url] and [Location].
    When the provider refuses the call, the zero record comes back with
    the provider's error text behind a fixed prefix. *)
Theorem Provision_success_iff_created (b : BigTableBroker) (instanceId : string)
    (details : ProvisionDetails) (plan : PlanDetails) (w : World) :
  let r := run (Provision b instanceId details plan) w in
  (∀ d, outcome r = Returns (d, None) →
     ∃ ic, CallCreateInstance ic ∈ calls r ∧ create_error w ic = None ∧
           Name d = ic_InstanceId ic ∧ Url d = "" ∧ Location d = "") ∧
  (∀ ic, CallCreateInstance ic ∈ calls r → create_error w ic = None →
     ∃ d, outcome r = Returns (d, None)) ∧
  (∀ ic err, CallCreateInstance ic ∈ calls r → create_error w ic = Some err →
     outcome r =
       Returns (zero_ServiceInstanceDetails,
                Some (Errorf ("Error creating new instance: " +:+ err)))).
Proof.
  intros r. subst r. split; [|split].
  - intros d. rewrite Provision_run. unfold outcome, calls.
    destruct (unmarshalParameters details) as [?|[g|]]; [by intros [=]| |done].
    cbv zeta.
    destruct (json_Unmarshal (Features plan)); [by intros [=]|].
    destruct (client_error w (ProjectId b) [WithCustomUserAgent]);
      [by intros [=]|].
    destruct (Atoi _); [by intros [=]|].
    destruct (create_error w _) eqn:Hcreate; cbn [fst snd]; [by intros [=]|].
    intros [= <-]. eexists. split; [|split; [exact Hcreate|done]].
    rewrite elem_of_app. right. apply list_elem_of_further, list_elem_of_here.
  - intros ic Hic Hok. pose proof Hic as Hinv.
    apply Provision_create_inv in Hinv
      as (g & pd & n & Hg & Hpd & Hc & Hn & Heq).
    cbv zeta in Heq. rewrite Provision_run, Hg, Hpd, Hc, Hn. cbv zeta.
    rewrite <- Heq, Hok. eauto.
  - intros ic err Hic Herr. pose proof Hic as Hinv.
    apply Provision_create_inv in Hinv
      as (g & pd & n & Hg & Hpd & Hc & Hn & Heq).
    cbv zeta in Heq. rewrite Provision_run, Hg, Hpd, Hc, Hn. cbv zeta.
    rewrite <- Heq, Herr. reflexivity.
Qed.

(** X9. No run of [Provision] deletes an instance or reads the persistence
    layer, and none makes more than one call to the provider: a create
    call, when there is one, is the last call of the run and follows at
    once the creation of the client for the broker's project. *)
Theorem Provision_call_discipline (b : BigTableBroker) (instanceId : string)
    (details : ProvisionDetails) (plan : PlanDetails) (w : World) :
  let r := run (Provision b instanceId details plan) w in
  (∀ name, CallDeleteInstance name ∉ calls r) ∧
  (∀ id, CallFirst id ∉ calls r) ∧
  (List.length (List.filter is_provider_call (calls r)) ≤ 1)%nat ∧
  (∀ ic, CallCreateInstance ic ∈ calls r →
     ∃ pre, calls r =
            (pre ++ [CallNewInstanceAdminClient (ProjectId b)
                       [WithCustomUserAgent];
                     CallCreateInstance ic])%list ∧
            ∀ c, c ∈ pre → is_provider_call c = false).
Proof.
  intros r.
  assert (Hshape :
    ∃ pre post,
      calls r = (pre ++ post)%list ∧
      (pre = [] ∨ pre = [CallInstanceNameWithSeparator "-"]) ∧
      (post = [] ∨
       post = [CallNewInstanceAdminClient (ProjectId b) [WithCustomUserAgent]] ∨
       ∃ ic, post = [CallNewInstanceAdminClient (ProjectId b)
                       [WithCustomUserAgent];
                     CallCreateInstance ic])).
  { subst r. rewrite Provision_run. unfold calls.
    destruct (unmarshalParameters details) as [?|[g|]].
    - exists [], []. cbn. auto.
    - cbv zeta.
      exists (match g !! "name" with
              | Some _ => []
              | None => [CallInstanceNameWithSeparator "-"]
              end).
      assert (Hpre : match g !! "name" with
                     | Some _ => []
                     | None => [CallInstanceNameWithSeparator "-"]
                     end = [] ∨
                     match g !! "name" with
                     | Some _ => []
                     | None => [CallInstanceNameWithSeparator "-"]
                     end = [CallInstanceNameWithSeparator "-"])
        by (destruct (g !! "name"); auto).
      destruct (json_Unmarshal (Features plan)).
      { exists []. cbn [snd]. rewrite app_nil_r. auto. }
      destruct (client_error w (ProjectId b) [WithCustomUserAgent]).
      { eexists. cbn [snd]. split; [reflexivity|]. auto. }
      destruct (Atoi _).
      { eexists. cbn [snd]. split; [reflexivity|]. auto. }
      destruct (create_error w _); eexists; cbn [snd];
        (split; [reflexivity|]); eauto.
    - exists [CallInstanceNameWithSeparator "-"], []. cbn. auto. }
  destruct Hshape as (pre & post & -> & Hpre & Hpost).
  assert (Hpre' : ∀ c, c ∈ pre → c = CallInstanceNameWithSeparator "-").
  { intros c. destruct Hpre as [-> | ->];
      [by rewrite elem_of_nil|by rewrite list_elem_of_singleton]. }
  repeat split.
  - intros name. rewrite elem_of_app. intros [H%Hpre'|H]; [discriminate|].
    destruct Hpost as [-> | [-> | [ic ->]]];
      rewrite ?elem_of_cons, elem_of_nil in H; intuition discriminate.
  - intros id. rewrite elem_of_app. intros [H%Hpre'|H]; [discriminate|].
    destruct Hpost as [-> | [-> | [ic ->]]];
      rewrite ?elem_of_cons, elem_of_nil in H; intuition discriminate.
  - rewrite List.filter_app, List.length_app.
    destruct Hpre as [-> | ->], Hpost as [-> | [-> | [ic ->]]]; cbn; lia.
  - intros ic. rewrite elem_of_app. intros [H%Hpre'|H]; [discriminate|].
    destruct Hpost as [-> | [-> | [ic' ->]]];
      rewrite ?elem_of_cons, elem_of_nil in H;
      destruct H as [H|[H|H]] || destruct H as [H|H] || destruct H;
      try discriminate; try done.
    injection H as <-. exists pre. split; [reflexivity|].
    intros c ->%Hpre'. reflexivity.
Qed.

(** ** Panics *)

(** X10. [Provision] panics exactly when the raw parameters are the JSON
    [null]: the decoder then leaves the map [nil], and the run stops at
    the assignment of the generated name, after the one call to the
    generator. *)
Theorem Provision_panics_iff_null (b : BigTableBroker) (instanceId : string)
    (details : ProvisionDetails) (plan : PlanDetails) (w : World) :
  let r := run (Provision b instanceId details plan) w in
  ((∃ msg, outcome r = Panics msg) ↔ parse (RawParameters details) = Some JNull) ∧
  (parse (RawParameters details) = Some JNull →
   r = (Panics "assignment to entry in nil map",
        [CallInstanceNameWithSeparator "-"])).
Proof.
  intros r.
  assert (Hnull : unmarshalParameters details = inr None ↔
                  parse (RawParameters details) = Some JNull).
  { unfold unmarshalParameters.
    destruct (RawParameters details) as [|c s] eqn:Hraw; [by split|].
    cbn [String.length Nat.eqb]. unfold json_Unmarshal.
    destruct (parse (String c s)) as [[| | | | |kvs]|]; try by split.
    destruct (store_members kvs ∅) as [[?|] ?]; by split. }
  subst r. rewrite Provision_run. unfold outcome. split.
  - rewrite <- Hnull.
    destruct (unmarshalParameters details) as [?|[g|]].
    + split; [by intros [? [=]]|done].
    + cbv zeta. split; [|done].
      destruct (json_Unmarshal (Features plan)); [by intros [? [=]]|].
      destruct (client_error w (ProjectId b) [WithCustomUserAgent]);
        [by intros [? [=]]|].
      destruct (Atoi _); [by intros [? [=]]|].
      destruct (create_error w _); by intros [? [=]].
    + split; [done|]. eauto.
  - intros Hp%Hnull. by rewrite Hp.
Qed.

(** ** The details of an instance decode back *)

Lemma append_assoc (s t u : string) : (s +:+ t) +:+ u = s +:+ (t +:+ u).
Proof.
  induction s as [|c s IH]; [reflexivity|].
  change (String c ((s +:+ t) +:+ u) = String c (s +:+ t +:+ u)).
  f_equal. exact IH.
Qed.

Lemma encode_bytes_ascii (c : ascii) (r : string) :
  (byte c <? 128)%nat = true →
  encode_bytes 0 (String c r) = encode_char c +:+ encode_bytes 0 r.
Proof. intros Hc. cbn [encode_bytes]. rewrite Hc. reflexivity. Qed.

Lemma unquote_step_encode_char (c : ascii)
    (rec : string → option (string * string)) (t : string) :
  (byte c <? 128)%nat = true →
  unquote_step rec (encode_char c +:+ t) = prepend (String c "") (rec t).
Proof.
  intros Hc. unfold encode_char. destruct (htmlSafe c) eqn:Hsafe.
  - unfold htmlSafe, in_range in Hsafe.
    apply andb_true_iff in Hsafe as [Hrange Hnot].
    apply andb_true_iff in Hrange as [Hlow _]. apply Nat.leb_le in Hlow.
    apply negb_true_iff in Hnot.
    do 3 (apply orb_false_iff in Hnot as [Hnot _]).
    apply orb_false_iff in Hnot as [Hquote Hbackslash].
    change (String c "" +:+ t) with (String c t).
    unfold unquote_step. rewrite Hquote, Hbackslash.
    replace (byte c <? 32)%nat with false
      by (symmetry; apply Nat.ltb_ge; lia).
    unfold utf8_size. rewrite Hc. unfold take. cbn [substring drop].
    by destruct t.
  - destruct c as [[] [] [] [] [] [] [] []];
      try discriminate Hc; try discriminate Hsafe; reflexivity.
Qed.

Lemma encode_char_length (c : ascii) : (1 ≤ String.length (encode_char c))%nat.
Proof.
  unfold encode_char, escape_byte, u_escape.
  repeat match goal with
         | |- context [if ?x then _ else _] => destruct x
         end; cbn; lia.
Qed.

(** Reading back what [encode_bytes] wrote, up to the closing quote. *)
Lemma unquote_encode_bytes (s t : string) (f : nat) :
  ascii_only s = true →
  (String.length (encode_bytes 0 s) < f)%nat →
  unquote f (encode_bytes 0 s +:+ String "034" t) = Some (s, t).
Proof.
  revert f. induction s as [|c s IH]; intros f Hs Hf.
  - destruct f as [|f]; [cbn in Hf; lia|]. reflexivity.
  - cbn [ascii_only] in Hs. apply andb_true_iff in Hs as [Hc Hs].
    rewrite encode_bytes_ascii in * by exact Hc.
    rewrite length_append in Hf. pose proof (encode_char_length c).
    destruct f as [|f]; [lia|].
    rewrite append_assoc. cbn [unquote].
    rewrite unquote_step_encode_char by exact Hc.
    rewrite IH by (exact Hs || lia). reflexivity.
Qed.

Lemma scan_string_encode_string (s t : string) :
  ascii_only s = true →
  scan_string (encode_string s +:+ t) = Some (s, t).
Proof.
  intros Hs. unfold encode_string, quoted, dq.
  change (String "034" "" +:+ encode_bytes 0 s +:+ String "034" "")
    with (String "034" (encode_bytes 0 s +:+ String "034" "")).
  change (String "034" (encode_bytes 0 s +:+ String "034" "") +:+ t)
    with (String "034" ((encode_bytes 0 s +:+ String "034" "") +:+ t)).
  rewrite append_assoc.
  change (String "034" "" +:+ t) with (String "034" t).
  unfold scan_string. cbn [after]. rewrite Ascii.eqb_refl.
  apply unquote_encode_bytes; [exact Hs|].
  rewrite length_append. cbn. lia.
Qed.

(** The object with the one member [instance_id], as [json_Marshal]
    writes it, decodes to that member. *)
Lemma json_Unmarshal_instance_information (name : string) :
  ascii_only name = true →
  json_Unmarshal ("{" +:+ quoted "instance_id" +:+ ":" +:+ encode_string name
                  +:+ "}")
  = inr (Some {[ "instance_id" := name ]}).
Proof.
  intros Hname.
  assert (Hvalue : ∀ k,
    parse_value (S k) (encode_string name +:+ "}") = Some (JString name, "}")).
  { intros k. cbn [parse_value]. unfold value_step.
    change (skip_space (encode_string name +:+ "}"))
      with (encode_string name +:+ "}").
    change (encode_string name +:+ "}")
      with (String "034" ((encode_bytes 0 name +:+ String "034" "") +:+ "}")) at 1.
    cbn [Ascii.eqb Bool.eqb]. 
    change (String "034" ((encode_bytes 0 name +:+ String "034" "") +:+ "}"))
      with (encode_string name +:+ "}").
    by rewrite scan_string_encode_string. }
  assert (Hmembers : ∀ k,
    parse_members (S (S k))
      (quoted "instance_id" +:+ ":" +:+ encode_string name +:+ "}")
    = Some ([("instance_id", JString name)], "")).
  { intros k. cbn [parse_members]. unfold members_step.
    change (skip_space (quoted "instance_id" +:+ ":" +:+ encode_string name +:+ "}"))
      with (encode_string "instance_id" +:+ ":" +:+ encode_string name +:+ "}").
    rewrite scan_string_encode_string by reflexivity.
    change (after ":" (skip_space (":" +:+ encode_string name +:+ "}")))
      with (Some (encode_string name +:+ "}")).
    cbv beta iota. rewrite Hvalue. reflexivity. }
  assert (Hparse :
    parse ("{" +:+ quoted "instance_id" +:+ ":" +:+ encode_string name +:+ "}")
    = Some (JObject [("instance_id", JString name)])).
  { unfold parse.
    change (String.length ("{" +:+ quoted "instance_id" +:+ ":"
                           +:+ encode_string name +:+ "}"))
      with (S (String.length (quoted "instance_id" +:+ ":"
                              +:+ encode_string name +:+ "}"))).
    set (l := String.length _).
    replace (2 * S l + 2)%nat with (S (S (S (S (l + l))))) by lia.
    cbn [parse_value]. unfold value_step at 1.
    change (skip_space ("{" +:+ quoted "instance_id" +:+ ":"
                        +:+ encode_string name +:+ "}"))
      with (String "{" (quoted "instance_id" +:+ ":"
                        +:+ encode_string name +:+ "}")).
    cbv beta iota.
    change (Ascii.eqb "{" "{") with true. cbv iota.
    change (after "}" (skip_space (quoted "instance_id" +:+ ":"
                                   +:+ encode_string name +:+ "}")))
      with (@None string).
    cbv iota. rewrite Hmembers. reflexivity. }
  unfold json_Unmarshal. rewrite Hparse. reflexivity.
Qed.

(** X11. When [Provision] succeeds with an instance name of bytes below
    128, the [OtherDetails] of the record it returns decode to the one
    member [instance_id] holding the [Name] of the record. *)
Theorem other_details_round_trip (b : BigTableBroker) (instanceId : string)
    (details : ProvisionDetails) (plan : PlanDetails) (w : World)
    (d : ServiceInstanceDetails) :
  outcome (run (Provision b instanceId details plan) w) = Returns (d, None) →
  ascii_only (Name d) = true →
  json_Unmarshal (OtherDetails d) = inr (Some {[ "instance_id" := Name d ]}).
Proof.
  rewrite Provision_run. unfold outcome.
  destruct (unmarshalParameters details) as [?|[g|]]; [by intros [=]| |done].
  cbv zeta.
  destruct (json_Unmarshal (Features plan)); [by intros [=]|].
  destruct (client_error w (ProjectId b) [WithCustomUserAgent]);
    [by intros [=]|].
  destruct (Atoi _); [by intros [=]|].
  destruct (create_error w _); cbn [fst]; [by intros [=]|].
  intros [= <-]. cbn [Name OtherDetails].
  apply json_Unmarshal_instance_information.
Qed.

(** ** Deprovision: success, failure and the calls of a run *)

(** X12. [Deprovision] returns without error exactly when it has made a
    delete call that the provider accepted.  When the provider refuses the
    call, its error text comes back behind a fixed prefix. *)
Theorem Deprovision_success_iff_deleted (b : BigTableBroker)
    (instanceID : string) (details : DeprovisionDetails) (w : World) :
  let r := run (Deprovision b instanceID details) w in
  (outcome r = Returns None ↔
   ∃ name, CallDeleteInstance name ∈ calls r ∧ delete_error w name = None) ∧
  (∀ name err, CallDeleteInstance name ∈ calls r →
     delete_error w name = Some err →
     outcome r = Returns (Some (Errorf ("Error deleting dataset: " +:+ err)))).
Proof.
  intros r. subst r. rewrite Deprovision_run. cbv zeta. unfold outcome, calls.
  destruct (client_error w (ProjectId b) []).
  { cbn [fst snd]. split; [split; [discriminate|]|].
    - intros (name & H & _). apply list_elem_of_singleton in H. discriminate.
    - intros name err H. apply list_elem_of_singleton in H. discriminate. }
  destruct (First (DbConnection w) instanceID) as [e|instance].
  { cbn [fst snd]. split; [split; [discriminate|]|].
    - intros (name & H & _).
      rewrite elem_of_cons, list_elem_of_singleton in H.
      destruct H; discriminate.
    - intros name err H.
      rewrite elem_of_cons, list_elem_of_singleton in H.
      destruct H; discriminate. }
  cbn [fst snd].
  assert (Hname : ∀ name,
    CallDeleteInstance name ∈
      [CallNewInstanceAdminClient (ProjectId b) []; CallFirst instanceID;
       CallDeleteInstance (Name instance)] → name = Name instance).
  { intros name. rewrite !elem_of_cons, elem_of_nil.
    intros [H|[H|[H|[]]]]; try discriminate. by injection H. }
  split; [split|].
  - intros Hret. exists (Name instance). split.
    + do 2 apply list_elem_of_further. apply list_elem_of_here.
    + by destruct (delete_error w (Name instance)).
  - intros (name & ->%Hname & ->). reflexivity.
  - intros name err ->%Hname ->. reflexivity.
Qed.

(** X13. [Deprovision] never panics, never creates an instance and never
    calls the name generator; it makes at most one call to the provider,
    and a delete call, when there is one, follows the creation of the
    client for the broker's project and the lookup of the given id, in
    this order, with nothing else in the run. *)
Theorem Deprovision_call_discipline (b : BigTableBroker) (instanceID : string)
    (details : DeprovisionDetails) (w : World) :
  let r := run (Deprovision b instanceID details) w in
  (∃ e, outcome r = Returns e) ∧
  (∀ ic, CallCreateInstance ic ∉ calls r) ∧
  (∀ sep, CallInstanceNameWithSeparator sep ∉ calls r) ∧
  (List.length (List.filter is_provider_call (calls r)) ≤ 1)%nat ∧
  (∀ name, CallDeleteInstance name ∈ calls r →
     calls r = [CallNewInstanceAdminClient (ProjectId b) [];
                CallFirst instanceID; CallDeleteInstance name]).
Proof.
  intros r. subst r. rewrite Deprovision_run. cbv zeta. unfold outcome, calls.
  destruct (client_error w (ProjectId b) []);
    [|destruct (First (DbConnection w) instanceID) as [e|instance]];
    cbn [fst snd]; (split; [eauto|]);
    (split; [intros ic; rewrite ?elem_of_cons, elem_of_nil;
             intuition discriminate|]);
    (split; [intros sep; rewrite ?elem_of_cons, elem_of_nil;
             intuition discriminate|]);
    (split; [cbn; lia|]);
    intros name; rewrite ?elem_of_cons, elem_of_nil;
    intros H; intuition (try discriminate).
  congruence.
Qed.

(** ** Provision, then Deprovision *)

(** X14. Let [Provision] succeed and return a record, and let that record
    be what is persisted under some id when [Deprovision] is called with
    that id, whichever id it is.  With a client created and a working
    connection, the run of [Deprovision] makes one delete call, and it
    names the instance that the create call of [Provision] named. *)
Theorem Deprovision_deletes_what_Provision_created (b : BigTableBroker)
    (instanceId instanceID : string) (details : ProvisionDetails)
    (plan : PlanDetails) (dd : DeprovisionDetails) (w w' : World)
    (d : ServiceInstanceDetails) :
  outcome (run (Provision b instanceId details plan) w) = Returns (d, None) →
  rows (DbConnection w') !! instanceID = Some d →
  fault (DbConnection w') = None →
  client_error w' (ProjectId b) [] = None →
  ∃ ic,
    CallCreateInstance ic ∈ calls (run (Provision b instanceId details plan) w) ∧
    calls (run (Deprovision b instanceID dd) w')
    = [CallNewInstanceAdminClient (ProjectId b) []; CallFirst instanceID;
       CallDeleteInstance (ic_InstanceId ic)].
Proof.
  intros Hret Hrow Hfault Hclient.
  rewrite Deprovision_run, Hclient. cbv zeta. unfold First.
  rewrite Hfault, Hrow. unfold calls at 2. cbn [snd].
  revert Hret. rewrite Provision_run. unfold outcome, calls.
  destruct (unmarshalParameters details) as [?|[g|]]; [by intros [=]| |done].
  cbv zeta.
  destruct (json_Unmarshal (Features plan)); [by intros [=]|].
  destruct (client_error w (ProjectId b) [WithCustomUserAgent]);
    [by intros [=]|].
  destruct (Atoi _); [by intros [=]|].
  destruct (create_error w _); cbn [fst snd]; [by intros [=]|].
  intros [= <-]. eexists. split.
  - rewrite elem_of_app. right. apply list_elem_of_further, list_elem_of_here.
  - reflexivity.
Qed.

(** ** MapPlan *)

(** X15. [MapPlan] answers with a map of exactly the two keys [num_nodes]
    and [storage_type], each holding what the given map holds under it, or
    the empty string when the given map lacks it or is [nil]; whatever
    else the given map holds is dropped, and mapping a second time changes
    nothing. *)
Theorem MapPlan_keeps_two_keys (details : gomap) :
  (∃ m : gmap string string,
     MapPlan details = Some m ∧
     dom m = ({[ "num_nodes"; "storage_type" ]} : gset string)) ∧
  comma_ok (MapPlan details) "num_nodes" = Some (index details "num_nodes") ∧
  comma_ok (MapPlan details) "storage_type"
  = Some (index details "storage_type") ∧
  (∀ k, k ≠ "num_nodes" → k ≠ "storage_type" →
        comma_ok (MapPlan details) k = None) ∧
  MapPlan (MapPlan details) = MapPlan details.
Proof.
  unfold MapPlan. split; [|split; [|split; [|split]]].
  - eexists. split; [reflexivity|].
    rewrite !dom_insert_L, dom_empty_L. set_solver.
  - cbn [comma_ok]. by rewrite lookup_insert_eq.
  - cbn [comma_ok]. by rewrite lookup_insert_ne, lookup_insert_eq.
  - intros k H1 H2. cbn [comma_ok].
    by rewrite !lookup_insert_ne, lookup_empty.
  - assert (Hn : ∀ m : gmap string string,
                index (Some (<["num_nodes" := index details "num_nodes"]> m))
                  "num_nodes" = index details "num_nodes").
    { intros m. unfold index at 1. cbn [comma_ok].
      by rewrite lookup_insert_eq. }
    assert (Hs : ∀ x (m : gmap string string),
                index (Some (<["num_nodes" := x]>
                               (<["storage_type" :=
                                    index details "storage_type"]> m)))
                  "storage_type" = index details "storage_type").
    { intros x m. unfold index at 1. cbn [comma_ok].
      by rewrite lookup_insert_ne, lookup_insert_eq. }
    by rewrite Hn, Hs.
Qed.

(** ** When no client can be created *)

(** X16. When the administrative client cannot be created, [Provision],
    once its inputs are decoded, and [Deprovision] return the error of the
    client behind their own prefix and go no further: no call reaches the
    provider, and [Deprovision] does not read the persistence layer. *)
Theorem client_creation_failure (b : BigTableBroker) (w : World) :
  (∀ instanceId details plan g pd err,
     unmarshalParameters details = inr (Some g) →
     json_Unmarshal (Features plan) = inr pd →
     client_error w (ProjectId b) [WithCustomUserAgent] = Some err →
     let r := run (Provision b instanceId details plan) w in
     outcome r =
       Returns (zero_ServiceInstanceDetails,
                Some (Errorf ("Error creating bigtable client: " +:+ err))) ∧
     (∀ c, c ∈ calls r → is_provider_call c = false)) ∧
  (∀ instanceID details err,
     client_error w (ProjectId b) [] = Some err →
     run (Deprovision b instanceID details) w =
       (Returns (Some (Errorf ("Error creating BigQuery client: " +:+ err))),
        [CallNewInstanceAdminClient (ProjectId b) []])).
Proof.
  split.
  - intros instanceId details plan g pd err Hg Hpd Hc r. subst r.
    rewrite Provision_run, Hg, Hpd, Hc. cbv zeta. split; [reflexivity|].
    unfold calls. cbn [snd]. intros c.
    rewrite elem_of_app, list_elem_of_singleton.
    destruct (g !! "name"); rewrite ?elem_of_nil, ?list_elem_of_singleton;
      intros [H|H]; subst; done.
  - intros instanceID details err Hc. by rewrite Deprovision_run, Hc.
Qed.

(** ** What Provision reads *)

(** X17. [Provision] reads four of the raw parameters, [name],
    [cluster_id], [zone] and [display_name], and two of the plan features,
    [num_nodes] and [storage_type]: two calls for the same broker in the
    same world whose decoded inputs agree on these run alike, whatever
    else the inputs hold and whatever instance ids the calls are given. *)
Theorem Provision_reads_six_keys (b : BigTableBroker)
    (instanceId1 instanceId2 : string) (details1 details2 : ProvisionDetails)
    (plan1 plan2 : PlanDetails) (w : World)
    (g1 g2 : gmap string string) (pd1 pd2 : gomap) :
  unmarshalParameters details1 = inr (Some g1) →
  unmarshalParameters details2 = inr (Some g2) →
  json_Unmarshal (Features plan1) = inr pd1 →
  json_Unmarshal (Features plan2) = inr pd2 →
  g1 !! "name" = g2 !! "name" →
  g1 !! "cluster_id" = g2 !! "cluster_id" →
  g1 !! "zone" = g2 !! "zone" →
  g1 !! "display_name" = g2 !! "display_name" →
  index pd1 "num_nodes" = index pd2 "num_nodes" →
  index pd1 "storage_type" = index pd2 "storage_type" →
  run (Provision b instanceId1 details1 plan1) w
  = run (Provision b instanceId2 details2 plan2) w.
Proof.
  intros Hg1 Hg2 Hpd1 Hpd2 Hname Hcluster Hzone Hdisplay Hnodes Hstorage.
  rewrite !Provision_run, Hg1, Hg2, Hpd1, Hpd2.
  by rewrite Hname, Hcluster, Hzone, Hdisplay, Hnodes, Hstorage.
Qed.

(** ** The further properties at sample inputs *)

Ltac find_in_log :=
  vm_compute;
  repeat first [apply list_elem_of_here | apply list_elem_of_further].

Lemma zone_default_and_override_witness :
  ∃ ic,
    CallCreateInstance ic ∈
      calls (run (Provision sample_broker "guid-1"
                    {| RawParameters := zone_display_parameters |}
                    {| Features := features_3_SSD |}) world_ok) ∧
    ic_Zone ic = "europe-west1-c".
Proof.
  eexists. split; [find_in_log|].
  eapply (zone_default_and_override sample_broker "guid-1"
            {| RawParameters := zone_display_parameters |}
            {| Features := features_3_SSD |} world_ok
            (<["zone" := "europe-west1-c"]> {[ "display_name" := "My table" ]})).
  - vm_compute; reflexivity.
  - find_in_log.
  - vm_compute; reflexivity.
Defined.

Lemma display_name_default_and_override_witness :
  ∃ ic,
    CallCreateInstance ic ∈
      calls (run (Provision sample_broker "guid-1"
                    {| RawParameters := zone_display_parameters |}
                    {| Features := features_3_SSD |}) world_ok) ∧
    ic_DisplayName ic = "My table".
Proof.
  eexists. split; [find_in_log|].
  eapply (display_name_default_and_override sample_broker "guid-1"
            {| RawParameters := zone_display_parameters |}
            {| Features := features_3_SSD |} world_ok
            (<["zone" := "europe-west1-c"]> {[ "display_name" := "My table" ]})).
  - vm_compute; reflexivity.
  - find_in_log.
  - vm_compute; reflexivity.
Defined.

Lemma instance_name_resolution_witness :
  (∀ sep,
     CallInstanceNameWithSeparator sep ∉
       calls (run (Provision sample_broker "guid-1"
                     {| RawParameters := empty_name_parameters |}
                     {| Features := features_3_SSD |}) world_ok)) ∧
  ∀ d,
    outcome (run (Provision sample_broker "guid-1"
                    {| RawParameters := zone_display_parameters |}
                    {| Features := features_3_SSD |}) world_ok)
    = Returns (d, None) →
    Name d = "pcf-sb-1-1500000000".
Proof.
  split.
  - destruct (instance_name_resolution sample_broker "guid-1"
                {| RawParameters := empty_name_parameters |}
                {| Features := features_3_SSD |} world_ok {[ "name" := "" ]})
      as [Hsome _]; [vm_compute; reflexivity|].
    destruct (Hsome "") as [Hgen _]; [vm_compute; reflexivity|exact Hgen].
  - destruct (instance_name_resolution sample_broker "guid-1"
                {| RawParameters := zone_display_parameters |}
                {| Features := features_3_SSD |} world_ok
                (<["zone" := "europe-west1-c"]>
                   {[ "display_name" := "My table" ]}))
      as [_ Hnone]; [vm_compute; reflexivity|].
    destruct Hnone as [_ [_ Hname]]; [vm_compute; reflexivity|exact Hname].
Defined.

Lemma derived_cluster_id_length_witness :
  ∃ ic,
    CallCreateInstance ic ∈
      calls (run (Provision sample_broker "guid-1"
                    {| RawParameters := long_name_parameters |}
                    {| Features := features_3_SSD |}) world_ok) ∧
    String.length (ic_InstanceId ic) = 26%nat ∧
    (String.length (ic_ClusterId ic) ≤ 28)%nat.
Proof.
  eexists. split; [find_in_log|]. split; [reflexivity|].
  eapply (derived_cluster_id_length sample_broker "guid-1"
            {| RawParameters := long_name_parameters |}
            {| Features := features_3_SSD |} world_ok
            {[ "name" := long_name ]}).
  - vm_compute; reflexivity.
  - vm_compute; reflexivity.
  - find_in_log.
Defined.

Lemma node_count_is_int32_witness :
  ∃ ic,
    CallCreateInstance ic ∈
      calls (run (Provision sample_broker "guid-1"
                    {| RawParameters := mytable_parameters |}
                    {| Features := features_wide_SSD |}) world_ok) ∧
    ic_NumNodes ic = 4%Z ∧
    (∃ k, ic_NumNodes ic = 4294967300 + k * 2 ^ 32)%Z.
Proof.
  eexists. split; [find_in_log|]. split; [reflexivity|].
  eapply (node_count_is_int32 sample_broker "guid-1"
            {| RawParameters := mytable_parameters |}
            {| Features := features_wide_SSD |} world_ok
            (Some (<["num_nodes" := "4294967300"]> {[ "storage_type" := "SSD" ]}))
            4294967300%Z).
  - vm_compute; reflexivity.
  - vm_compute; reflexivity.
  - find_in_log.
Defined.

Lemma missing_num_nodes_witness :
  outcome (run (Provision sample_broker "guid-1"
                  {| RawParameters := mytable_parameters |}
                  {| Features := features_no_nodes |}) world_ok) =
  Returns (zero_ServiceInstanceDetails,
           Some (Errorf ("Error converting num_nodes to int: "
                         +:+ NumError "" ErrSyntax))).
Proof.
  apply (missing_num_nodes sample_broker "guid-1"
           {| RawParameters := mytable_parameters |}
           {| Features := features_no_nodes |} world_ok
           {[ "name" := "mytable" ]} (Some {[ "storage_type" := "SSD" ]}));
    vm_compute; reflexivity.
Defined.

Lemma plan_features_decoding_witness :
  outcome (run (Provision sample_broker "guid-1"
                  {| RawParameters := mytable_parameters |}
                  {| Features := "" |}) world_ok) =
  Returns (zero_ServiceInstanceDetails,
           Some (Errorf ("Error unmarshalling plan features: " +:+ SyntaxError))).
Proof.
  apply (plan_features_decoding sample_broker "guid-1"
           {| RawParameters := mytable_parameters |} {| Features := "" |}
           world_ok {[ "name" := "mytable" ]});
    vm_compute; reflexivity.
Defined.

Lemma Provision_success_iff_created_witness :
  (∃ d,
     outcome (run (Provision sample_broker "guid-1"
                     {| RawParameters := mytable_parameters |}
                     {| Features := features_3_SSD |}) world_ok)
     = Returns (d, None)) ∧
  outcome (run (Provision sample_broker "guid-1"
                  {| RawParameters := mytable_parameters |}
                  {| Features := features_3_SSD |}) world_provider_refuses)
  = Returns (zero_ServiceInstanceDetails,
             Some (Errorf "Error creating new instance: rpc error: already exists")).
Proof.
  split.
  - eapply (Provision_success_iff_created sample_broker "guid-1"
              {| RawParameters := mytable_parameters |}
              {| Features := features_3_SSD |} world_ok);
      [find_in_log|reflexivity].
  - eapply (Provision_success_iff_created sample_broker "guid-1"
              {| RawParameters := mytable_parameters |}
              {| Features := features_3_SSD |} world_provider_refuses);
      [find_in_log|reflexivity].
Defined.

Lemma Provision_call_discipline_witness :
  ∃ pre,
    calls (run (Provision sample_broker "guid-1"
                  {| RawParameters := "" |}
                  {| Features := features_3_SSD |}) world_ok)
    = (pre ++ [CallNewInstanceAdminClient "my-project" [WithCustomUserAgent];
               CallCreateInstance
                 {| ic_InstanceId := "pcf-sb-1-1500000000";
                    ic_ClusterId := "pcf-sb-1-1500000000-cluster";
                    ic_NumNodes := 3;
                    ic_StorageType := SSD;
                    ic_Zone := "us-east1-b";
                    ic_DisplayName := "pcf-sb-1-1500000000" |}])%list ∧
    ∀ c, c ∈ pre → is_provider_call c = false.
Proof.
  apply (Provision_call_discipline sample_broker "guid-1"
           {| RawParameters := "" |} {| Features := features_3_SSD |} world_ok).
  find_in_log.
Defined.

Lemma Provision_panics_iff_null_witness :
  run (Provision sample_broker "guid-1" {| RawParameters := " null " |}
         {| Features := features_3_SSD |}) world_ok
  = (Panics "assignment to entry in nil map",
     [CallInstanceNameWithSeparator "-"]).
Proof.
  apply (Provision_panics_iff_null sample_broker "guid-1"
           {| RawParameters := " null " |} {| Features := features_3_SSD |}
           world_ok).
  vm_compute; reflexivity.
Defined.

Lemma other_details_round_trip_witness :
  ∃ d,
    outcome (run (Provision sample_broker "guid-1"
                    {| RawParameters := zone_display_parameters |}
                    {| Features := features_3_SSD |}) world_ok)
    = Returns (d, None) ∧
    json_Unmarshal (OtherDetails d)
    = inr (Some {[ "instance_id" := "pcf-sb-1-1500000000" ]}).
Proof.
  eexists. split; [vm_compute; reflexivity|].
  eapply (other_details_round_trip sample_broker "guid-1"
            {| RawParameters := zone_display_parameters |}
            {| Features := features_3_SSD |} world_ok);
    vm_compute; reflexivity.
Defined.

Lemma Deprovision_success_iff_deleted_witness :
  outcome (run (Deprovision sample_broker "guid-1" NoDeprovisionDetails)
             world_ok) = Returns None ∧
  outcome (run (Deprovision sample_broker "guid-1" NoDeprovisionDetails)
             world_provider_refuses)
  = Returns (Some (Errorf "Error deleting dataset: rpc error: not found")).
Proof.
  split.
  - apply (Deprovision_success_iff_deleted sample_broker "guid-1"
             NoDeprovisionDetails world_ok).
    exists "foo". split; [find_in_log|reflexivity].
  - apply (Deprovision_success_iff_deleted sample_broker "guid-1"
             NoDeprovisionDetails world_provider_refuses) with (name := "foo");
      [find_in_log|reflexivity].
Defined.

Lemma Deprovision_call_discipline_witness :
  calls (run (Deprovision sample_broker "guid-1" NoDeprovisionDetails) world_ok)
  = [CallNewInstanceAdminClient "my-project" []; CallFirst "guid-1";
     CallDeleteInstance "foo"].
Proof.
  apply (Deprovision_call_discipline sample_broker "guid-1"
           NoDeprovisionDetails world_ok).
  find_in_log.
Defined.

Lemma Deprovision_deletes_what_Provision_created_witness :
  ∃ ic,
    CallCreateInstance ic ∈
      calls (run (Provision sample_broker "guid-9"
                    {| RawParameters := mytable_parameters |}
                    {| Features := features_3_SSD |}) world_ok) ∧
    calls (run (Deprovision sample_broker "guid-9" NoDeprovisionDetails)
             (persisted "guid-9"
                {| Name := "mytable"; Url := ""; Location := "";
                   OtherDetails := mytable_details |} world_ok))
    = [CallNewInstanceAdminClient "my-project" []; CallFirst "guid-9";
       CallDeleteInstance (ic_InstanceId ic)].
Proof.
  apply (Deprovision_deletes_what_Provision_created sample_broker
           "guid-9" "guid-9" {| RawParameters := mytable_parameters |}
           {| Features := features_3_SSD |} NoDeprovisionDetails world_ok
           (persisted "guid-9"
              {| Name := "mytable"; Url := ""; Location := "";
                 OtherDetails := mytable_details |} world_ok)
           {| Name := "mytable"; Url := ""; Location := "";
              OtherDetails := mytable_details |});
    vm_compute; reflexivity.
Defined.

Lemma MapPlan_keeps_two_keys_witness :
  comma_ok (MapPlan (Some (<["num_nodes" := "3"]> {[ "guid" := "abc" ]})))
    "guid" = None ∧
  comma_ok (MapPlan None) "storage_type" = Some "".
Proof.
  split.
  - apply (MapPlan_keeps_two_keys
             (Some (<["num_nodes" := "3"]> {[ "guid" := "abc" ]})));
      discriminate.
  - apply (MapPlan_keeps_two_keys None).
Defined.

Lemma client_creation_failure_witness :
  run (Deprovision sample_broker "guid-1" NoDeprovisionDetails) world_no_client
  = (Returns (Some (Errorf ("Error creating BigQuery client: "
                            +:+ "could not find default credentials"))),
     [CallNewInstanceAdminClient "my-project" []]) ∧
  outcome (run (Provision sample_broker "guid-1"
                  {| RawParameters := mytable_parameters |}
                  {| Features := features_3_SSD |}) world_no_client)
  = Returns (zero_ServiceInstanceDetails,
             Some (Errorf ("Error creating bigtable client: "
                           +:+ "could not find default credentials"))).
Proof.
  split.
  - apply (client_creation_failure sample_broker world_no_client).
    reflexivity.
  - eapply (client_creation_failure sample_broker world_no_client);
      vm_compute; reflexivity.
Defined.

Lemma Provision_reads_six_keys_witness :
  run (Provision sample_broker "guid-1"
         {| RawParameters := mytable_parameters |}
         {| Features := features_3_SSD |}) world_ok
  = run (Provision sample_broker "guid-2"
           {| RawParameters := mytable_color_parameters |}
           {| Features := features_3_SSD |}) world_ok.
Proof.
  apply (Provision_reads_six_keys sample_broker "guid-1" "guid-2"
           {| RawParameters := mytable_parameters |}
           {| RawParameters := mytable_color_parameters |}
           {| Features := features_3_SSD |} {| Features := features_3_SSD |}
           world_ok {[ "name" := "mytable" ]}
           (<["name" := "mytable"]> {[ "color" := "blue" ]})
           (Some (<["num_nodes" := "3"]> {[ "storage_type" := "SSD" ]}))
           (Some (<["num_nodes" := "3"]> {[ "storage_type" := "SSD" ]})));
    vm_compute; reflexivity.
Defined.
